(** * Influencer campaign ROI dashboard: the metric pipeline of [prac.py]

    The script is a pandas program.  A DataFrame is modelled the way pandas
    holds it: a finite map from column names to columns, every numeric cell a
    binary64 value (Rocq's primitive floats, so NaN, the infinities and
    rounding are the machine's), every operation column-wise.  Python
    exceptions are values of [exn]; a step that can raise returns a [result].

    Part I holds the definitions, Part II the lemmas about binary64 and the
    column operations, Part III the properties of the pipeline. *)

From Stdlib Require Import ZArith List String Ascii Floats Bool Lia Sorted Permutation.
From stdpp Require Import base option list gmap strings fin_maps.

(* ===================================================================== *)
(** * Part I: definitions *)
(* ===================================================================== *)

(** ** Exceptions and the result monad *)

Inductive exn : Type :=
| KeyError (key : string)
| KeyErrorNotInIndex (keys : list string)
| TypeError
| AttributeError
| ValueError
| OverflowError
| ZeroDivisionError.

Definition result (A : Type) : Type := (exn + A)%type.

Definition raise {A : Type} (e : exn) : result A := inl e.

Definition ok {A : Type} (a : A) : result A := inr a.

Definition bind {A B : Type} (m : result A) (k : A -> result B) : result B :=
  match m with
  | inl e => inl e
  | inr a => k a
  end.

Notation "'let*' x ':=' m 'in' k" := (bind m (fun x => k))
  (at level 10, x name, m at level 100, k at level 200).

(** ** Binary64 helpers *)

Module F64.

(** Lexicographic comparison of (exponent, mantissa), the order [SFcompare]
    uses between two finite values of the same sign. *)
Definition lexcmp (e1 : Z) (m1 : positive) (e2 : Z) (m2 : positive) : comparison :=
  match Z.compare e1 e2 with
  | Lt => Lt
  | Gt => Gt
  | Eq => Pos.compare_cont Eq m1 m2
  end.

(** [cmp_is r1 r2 r3]: comparing a with b gives r1, b with c gives r2, then a
    with c gives r3 (the composable cases of a total preorder). *)
Inductive cmp_is : comparison -> comparison -> comparison -> Prop :=
| cmp_lt_lt : cmp_is Lt Lt Lt
| cmp_lt_eq : cmp_is Lt Eq Lt
| cmp_eq_lt : cmp_is Eq Lt Lt
| cmp_eq_eq : cmp_is Eq Eq Eq
| cmp_gt_gt : cmp_is Gt Gt Gt
| cmp_gt_eq : cmp_is Gt Eq Gt
| cmp_eq_gt : cmp_is Eq Gt Gt.

Definition sf_finite (x : spec_float) : bool :=
  match x with
  | S754_zero _ | S754_finite _ _ _ => true
  | _ => false
  end.

(** A float that is neither NaN nor an infinity. *)
Definition finite (x : float) : bool := sf_finite (Prim2SF x).

(** The comparison of two floats, [None] when one of them is NaN. *)
Definition fcmp (x y : float) : option comparison :=
  SFcompare (Prim2SF x) (Prim2SF y).

(** Conversion of an integer, rounded to nearest even (exact below 2^53). *)
Definition of_Z (z : Z) : float := SF2Prim (binary_normalize prec emax z 0 false).

(** Python's [int(x)]: truncation toward zero; NaN and the infinities raise. *)
Definition to_int (x : float) : result Z :=
  match Prim2SF x with
  | S754_zero _ => ok 0%Z
  | S754_finite s m e =>
      let a := match e with
               | Zneg p => Z.div (Zpos m) (Z.pow 2 (Zpos p))
               | _ => Z.mul (Zpos m) (Z.pow 2 e)
               end in
      ok (if s then Z.opp a else a)
  | S754_infinity _ => raise OverflowError
  | S754_nan => raise ValueError
  end.

End F64.

(** ** Dates *)

Record date : Type := mkdate { year : Z; month : Z; day : Z }.

(** Python compares [datetime.date] values as (year, month, day). *)
Definition date_leb (a b : date) : bool :=
  (year a <? year b)%Z
  || ((year a =? year b)%Z
      && ((month a <? month b)%Z
          || ((month a =? month b)%Z && (day a <=? day b)%Z))).

Definition digit (n : Z) : ascii := ascii_of_nat (48 + Z.to_nat (n mod 10)).

Definition fmt2 (n : Z) : string :=
  String (digit (n / 10)) (String (digit n) EmptyString).

Definition fmt4 (n : Z) : string :=
  String (digit (n / 1000)) (String (digit (n / 100)) (fmt2 n)).

(** [str(Period(d, "M"))], "YYYY-MM"; a missing date prints as "NaT". *)
Definition period_M_str (d : option date) : string :=
  match d with
  | Some d => String.append (fmt4 (year d)) (String "-"%char (fmt2 (month d)))
  | None => "NaT"%string
  end.

(** ** Columns and frames *)

(** A pandas Series by dtype: float64 (integer columns are held as the floats
    they convert to), object (strings), datetime64 ([None] is NaT). *)
Inductive column : Type :=
| NumCol (xs : list float)
| StrCol (xs : list string)
| DateCol (xs : list (option date)).

Definition col_length (c : column) : nat :=
  match c with
  | NumCol xs => length xs
  | StrCol xs => length xs
  | DateCol xs => length xs
  end.

Abbreviation DataFrame := (gmap string column).

(** All columns have the same number of rows. *)
Definition wf_frame (df : DataFrame) : Prop :=
  exists n : nat, map_Forall (fun _ c => col_length c = n) df.

(** [df.empty]: no cell at all. *)
Definition df_empty (df : DataFrame) : Prop :=
  map_Forall (fun _ c => col_length c = 0) df.

(** [df[c]] *)
Definition getcol (df : DataFrame) (c : string) : result column :=
  match df !! c with
  | Some s => ok s
  | None => raise (KeyError c)
  end.

Definition cell_num (df : DataFrame) (c : string) (i : nat) : option float :=
  match df !! c with
  | Some (NumCol xs) => xs !! i
  | _ => None
  end.

Definition cell_str (df : DataFrame) (c : string) (i : nat) : option string :=
  match df !! c with
  | Some (StrCol xs) => xs !! i
  | _ => None
  end.

(** Element-wise arithmetic of two Series; defined on numeric dtypes. *)
Definition series_binop (op : float -> float -> float) (a b : column) : result column :=
  match a, b with
  | NumCol xs, NumCol ys => ok (NumCol (zip_with op xs ys))
  | _, _ => raise TypeError
  end.

(** [series * k] *)
Definition series_scale (a : column) (k : float) : result column :=
  match a with
  | NumCol xs => ok (NumCol (map (fun x => (x * k)%float) xs))
  | _ => raise TypeError
  end.

Definition zero_to_nan (x : float) : float :=
  if (x =? 0)%float then nan else x.

(** [series.replace(0, np.nan)] *)
Definition replace_zero_nan (a : column) : column :=
  match a with
  | NumCol xs => NumCol (map zero_to_nan xs)
  | _ => a
  end.

(** The lambda of lines 71-74; [x >= k] is [k <= x]. *)
Definition performance_category (x : float) : string :=
  if (200 <=? x)%float then "High Performer"
  else if (100 <=? x)%float then "Good Performer"
  else if (0 <=? x)%float then "Average Performer"
  else "Poor Performer".

(** [series.apply(f)] for an [f] that compares its argument with numbers. *)
Definition series_apply (f : float -> string) (a : column) : result column :=
  match a with
  | NumCol xs => ok (StrCol (map f xs))
  | _ => raise TypeError
  end.

(** ** Normalisation: [clean_and_engineer] *)

Section Normalize.

(** [pd.to_datetime] is pandas' parser; the development is parametric in it. *)
Variable to_datetime : column -> result column.

(** Every [df[c] = ...] of the source is an insertion into the frame that is
    threaded through; column lookups happen in Python's evaluation order. *)
Definition clean_and_engineer (df : DataFrame) : result DataFrame :=
  let* d := getcol df "date" in
  let* d' := to_datetime d in
  let df := <["date" := d']> df in
  let* l := getcol df "likes" in
  let* c := getcol df "comments" in
  let* e := series_binop add l c in
  let df := <["engagement" := e]> df in
  let* e := getcol df "engagement" in
  let* r := getcol df "reach" in
  let* q := series_binop div e (replace_zero_nan r) in
  let* er := series_scale q 100 in
  let df := <["engagement_rate" := er]> df in
  let* rv := getcol df "revenue" in
  let* p := getcol df "total_payout" in
  let* roas := series_binop div rv (replace_zero_nan p) in
  let df := <["roas" := roas]> df in
  let* rv := getcol df "revenue" in
  let* p := getcol df "total_payout" in
  let* net := series_binop sub rv p in
  let* p := getcol df "total_payout" in
  let* q := series_binop div net (replace_zero_nan p) in
  let* roi := series_scale q 100 in
  let df := <["roi_percentage" := roi]> df in
  let* rv := getcol df "revenue" in
  let* o := getcol df "orders" in
  let* aov := series_binop div rv (replace_zero_nan o) in
  let df := <["average_order_value" := aov]> df in
  let* roi := getcol df "roi_percentage" in
  let* pc := series_apply performance_category roi in
  ok (<["performance_category" := pc]> df).

End Normalize.

(** A [to_datetime] for uploads whose date column already holds dates (what
    [read_excel] yields); used for the concrete tables below. *)
Definition keep_dates (c : column) : result column :=
  match c with
  | DateCol _ => ok c
  | _ => raise ValueError
  end.

(** The columns [clean_and_engineer] reads, in the order it reads them. *)
Definition read_columns : list string :=
  ["date"; "likes"; "comments"; "reach"; "revenue"; "total_payout"; "orders"]%string.

(** The fourteen documented columns of an upload. *)
Definition required_columns : list string :=
  ["date"; "name"; "platform"; "campaign"; "category"; "gender"; "reach";
   "followers"; "likes"; "comments"; "orders"; "revenue"; "total_payout";
   "basis"]%string.

(** The first column of [cs] that the frame lacks. *)
Fixpoint first_missing (cs : list string) (df : DataFrame) : option string :=
  match cs with
  | [] => None
  | c :: cs' =>
      match df !! c with
      | None => Some c
      | Some _ => first_missing cs' df
      end
  end.

(** The dtypes normalisation needs of the columns that are present. *)
Definition numeric_if_present (df : DataFrame) (c : string) : Prop :=
  match df !! c with
  | Some (NumCol _) | None => True
  | Some _ => False
  end.

(** ** Filtering: [flt] and [data] *)

Record FilterSpec : Type := mkFilterSpec {
  date_min : date;
  date_max : date;
  campaigns : list string;
  platforms : list string;
  categories : list string;
  genders : list string;
  perf_band : string
}.

Definition in_list (x : string) (l : list string) : bool :=
  existsb (String.eqb x) l.

(** [series.dt.date.between(lo, hi)], both ends included; NaT is outside. *)
Definition dt_date_between (lo hi : date) (c : column) : result (list bool) :=
  match c with
  | DateCol xs =>
      ok (map (fun d => match d with
                        | Some d => date_leb lo d && date_leb d hi
                        | None => false
                        end) xs)
  | _ => raise AttributeError
  end.

(** [series.isin(sel)] for a selection of strings. *)
Definition isin (sel : list string) (c : column) : list bool :=
  match c with
  | StrCol xs => map (fun x => in_list x sel) xs
  | NumCol xs => map (fun _ => false) xs
  | DateCol xs => map (fun _ => false) xs
  end.

(** [series.eq(s)] for a string [s]. *)
Definition series_eq (s : string) (c : column) : list bool :=
  match c with
  | StrCol xs => map (fun x => String.eqb x s) xs
  | NumCol xs => map (fun _ => false) xs
  | DateCol xs => map (fun _ => false) xs
  end.

Definition mask_and (a b : list bool) : list bool := zip_with andb a b.

Definition mask_or (a b : list bool) : list bool := zip_with orb a b.

(** The rows of [xs] at which the mask is true. *)
Fixpoint select {A : Type} (mask : list bool) (xs : list A) : list A :=
  match mask, xs with
  | b :: mask', x :: xs' => if b then x :: select mask' xs' else select mask' xs'
  | _, _ => []
  end.

Definition col_select (mask : list bool) (c : column) : column :=
  match c with
  | NumCol xs => NumCol (select mask xs)
  | StrCol xs => StrCol (select mask xs)
  | DateCol xs => DateCol (select mask xs)
  end.

(** [df[mask]]: a new frame. *)
Definition getitem_mask (df : DataFrame) (mask : list bool) : DataFrame :=
  col_select mask <$> df.

(** Lines 133-142: the boolean Series [flt]. *)
Definition flt (S : FilterSpec) (df : DataFrame) : result (list bool) :=
  let* d := getcol df "date" in
  let* m1 := dt_date_between (date_min S) (date_max S) d in
  let* c := getcol df "campaign" in
  let* p := getcol df "platform" in
  let* g := getcol df "category" in
  let* s := getcol df "gender" in
  let m := mask_and (mask_and (mask_and (mask_and m1 (isin (campaigns S) c))
                                        (isin (platforms S) p))
                              (isin (categories S) g))
                    (isin (genders S) s) in
  if String.eqb (perf_band S) "All" then ok m
  else
    let* pc := getcol df "performance_category" in
    ok (mask_and m (series_eq (perf_band S) pc)).

(** Line 144: [data = df[flt]]. *)
Definition data (S : FilterSpec) (df : DataFrame) : result DataFrame :=
  let* m := flt S df in
  ok (getitem_mask df m).

(** ** The session: DataFrame objects and in-place column assignment *)

(** Python names are bound to objects; two names may share one.  The heap maps
    an object's address to its current contents. *)
Abbreviation heap := (gmap positive (gmap string column)).

Definition prog (A : Type) : Type := heap -> result (A * heap).

Definition pbind {A B : Type} (m : prog A) (k : A -> prog B) : prog B :=
  fun h => match m h with
           | inl e => inl e
           | inr (a, h') => k a h'
           end.

Notation "'let!' x ':=' m 'in' k" := (pbind m (fun x => k))
  (at level 10, x name, m at level 100, k at level 200).

Definition lift {A : Type} (r : result A) : prog A :=
  fun h => match r with
           | inl e => inl e
           | inr a => inr (a, h)
           end.

(** A new object, at an address not in use. *)
Definition alloc (df : DataFrame) : prog positive :=
  fun h => let l := fresh (dom h) in ok (l, <[l := df]> h).

Definition load (l : positive) : prog DataFrame :=
  fun h => match h !! l with
           | Some df => ok (df, h)
           | None => raise (KeyError "")
           end.

(** [obj[c] = s]: the object at [l] is changed in place. *)
Definition setitem (l : positive) (c : string) (s : column) : prog unit :=
  fun h => match h !! l with
           | Some df => ok (tt, <[l := <[c := s]> df]> h)
           | None => raise (KeyError "")
           end.

(** [series.dt.to_period("M").astype(str)] *)
Definition dt_period_M_str (c : column) : result column :=
  match c with
  | DateCol xs => ok (StrCol (map period_M_str xs))
  | _ => raise AttributeError
  end.

(** Line 144, [data = df[flt]]: boolean indexing builds a new object. *)
Definition run_filter (S : FilterSpec) (df : positive) : prog positive :=
  let! D := load df in
  let! view := lift (data S D) in
  alloc view.

(** Line 429, [data["year_month"] = data["date"].dt.to_period("M").astype(str)]. *)
Definition add_year_month (data_ref : positive) : prog unit :=
  let! V := load data_ref in
  let! d := lift (getcol V "date") in
  let! ym := lift (dt_period_M_str d) in
  setitem data_ref "year_month" ym.

(** ** Reductions of a Series *)

Definition notnan (x : float) : bool := negb (is_nan x).

Definition dropna (xs : list float) : list float := List.filter notnan xs.

Definition fsum (xs : list float) : float := fold_left add xs 0%float.

Definition fcount (xs : list float) : float := F64.of_Z (Z.of_nat (length xs)).

Definition series_values (c : column) : result (list float) :=
  match c with
  | NumCol xs => ok xs
  | _ => raise TypeError
  end.

(** [Series.sum()]: missing values are skipped. *)
Definition series_sum (c : column) : result float :=
  let* xs := series_values c in
  ok (fsum (dropna xs)).

(** [Series.mean()]: missing values are skipped; NaN when nothing is left. *)
Definition series_mean (c : column) : result float :=
  let* xs := series_values c in
  ok (fsum (dropna xs) / fcount (dropna xs))%float.

(** [Series.std()], ddof = 1: missing values are skipped; NaN when fewer than
    two values are left. *)
Definition series_std (c : column) : result float :=
  let* xs := series_values c in
  let v := dropna xs in
  if (length v <=? 1)%nat then ok nan
  else
    let avg := (fsum v / fcount v)%float in
    let sqr := map (fun x => ((avg - x) * (avg - x))%float) v in
    ok (sqrt (fsum sqr / F64.of_Z (Z.of_nat (length v) - 1)))%float.

(** [series > k] and [series < k] *)
Definition series_gt (c : column) (k : float) : result (list bool) :=
  let* xs := series_values c in
  ok (map (fun x => (k <? x)%float) xs).

Definition series_lt (c : column) (k : float) : result (list bool) :=
  let* xs := series_values c in
  ok (map (fun x => (x <? k)%float) xs).

(** [df[[c1, ..., cn]]] *)
Definition project (cols : list string) (df : DataFrame) : result DataFrame :=
  match List.filter (fun c => negb (bool_decide (is_Some (df !! c)))) cols with
  | [] =>
      ok (foldr (fun c acc => match df !! c with
                              | Some s => <[c := s]> acc
                              | None => acc
                              end) ∅ cols)
  | missing => raise (KeyErrorNotInIndex missing)
  end.

(** ** Outliers (lines 456-459) *)

Definition outlier_mask (data : DataFrame) : result (list bool) :=
  let* r := getcol data "roi_percentage" in
  let* r1 := getcol data "roi_percentage" in
  let* m := series_mean r1 in
  let* r2 := getcol data "roi_percentage" in
  let* s := series_std r2 in
  let* hi := series_gt r (m + 2 * s)%float in
  let* r := getcol data "roi_percentage" in
  let* r1 := getcol data "roi_percentage" in
  let* m := series_mean r1 in
  let* r2 := getcol data "roi_percentage" in
  let* s := series_std r2 in
  let* lo := series_lt r (m - 2 * s)%float in
  ok (mask_or hi lo).

Definition outlier_df (data : DataFrame) : result DataFrame :=
  let* m := outlier_mask data in
  project ["name"; "campaign"; "platform"; "roi_percentage"; "revenue";
           "total_payout"]%string (getitem_mask data m).

(** The same rule in the words of the specification: a record is an outlier
    when its ROI is known and lies more than two sample standard deviations
    from the mean, both taken over the known ROI values [vals] of the view. *)
Module Spec.

Definition mean (vals : list float) : float :=
  (fsum vals / fcount vals)%float.

(** Sum of squared deviations over n - 1. *)
Definition sample_variance (vals : list float) : float :=
  (fsum (map (fun x => (mean vals - x) * (mean vals - x)) vals)
   / F64.of_Z (Z.of_nat (length vals) - 1))%float.

Definition sample_std (vals : list float) : float :=
  if (length vals <=? 1)%nat then nan else sqrt (sample_variance vals).

(** Sum of squared deviations over n. *)
Definition population_std (vals : list float) : float :=
  sqrt (fsum (map (fun x => (mean vals - x) * (mean vals - x)) vals)
        / fcount vals)%float.

Definition is_outlier (vals : list float) (x : float) : bool :=
  notnan x
  && ((mean vals + 2 * sample_std vals <? x)
      || (x <? mean vals - 2 * sample_std vals))%float.

End Spec.

(** ** Top-N and Bottom-N (lines 314 and 333) *)












(** ** Aggregate KPIs *)

Definition col_sum (df : DataFrame) (c : string) : result float :=
  let* s := getcol df c in
  series_sum s.

(** Line 171 *)
Definition roi_all (data : DataFrame) : result float :=
  let* rv := col_sum data "revenue" in
  let* p := col_sum data "total_payout" in
  let* p' := col_sum data "total_payout" in
  ok ((rv - p) / p' * 100)%float.

(** Line 188, "Cost / Order" *)
Definition cost_per_order (data : DataFrame) : result float :=
  let* p := col_sum data "total_payout" in
  let* o := col_sum data "orders" in
  ok (p / o)%float.

(** Line 496, the report's "Overall ROI" *)
Definition report_overall_roi (data : DataFrame) : result float :=
  let* rv := col_sum data "revenue" in
  let* p := col_sum data "total_payout" in
  let* p' := col_sum data "total_payout" in
  ok ((rv - p) / p' * 100)%float.

(** Python's [a / b] on two ints. *)
Definition py_truediv (a b : Z) : result float :=
  if (b =? 0)%Z then raise ZeroDivisionError
  else ok (F64.of_Z a / F64.of_Z b)%float.

(** Line 265: the five column sums. *)
Record funnel_sums : Type := mkFunnel {
  f_reach : float;
  f_engagement : float;
  f_orders : float;
  f_revenue : float;
  f_total_payout : float
}.

Definition funnel_df (data : DataFrame) : result funnel_sums :=
  let* sub := project ["reach"; "engagement"; "orders"; "revenue";
                       "total_payout"]%string data in
  let* r := col_sum sub "reach" in
  let* e := col_sum sub "engagement" in
  let* o := col_sum sub "orders" in
  let* rv := col_sum sub "revenue" in
  let* p := col_sum sub "total_payout" in
  ok (mkFunnel r e o rv p).

(** Line 267: [funnel_vals], five Python ints. *)
Record funnel_ints : Type := mkVals {
  v0 : Z; v1 : Z; v2 : Z; v3 : Z; v4 : Z
}.

Definition funnel_vals (f : funnel_sums) : result funnel_ints :=
  let* a := F64.to_int (f_reach f) in
  let* b := F64.to_int (f_engagement f) in
  let* c := F64.to_int (f_orders f) in
  let* d := F64.to_int (f_revenue f) in
  let* e := F64.to_int (f_total_payout f) in
  ok (mkVals a b c d e).

(** Lines 280, 283, 284, 285: ratios of Python ints. *)
Definition conversion_efficiency (v : funnel_ints) : result float :=
  let* q := py_truediv (v2 v) (v0 v) in ok (q * 100)%float.

Definition reach_to_engagement (v : funnel_ints) : result float :=
  let* q := py_truediv (v1 v) (v0 v) in ok (q * 100)%float.

Definition engagement_to_order (v : funnel_ints) : result float :=
  let* q := py_truediv (v2 v) (v1 v) in ok (q * 100)%float.

Definition order_to_revenue (v : funnel_ints) : result float :=
  py_truediv (v3 v) (v2 v).

(** Line 286: a ratio of two numpy floats. *)
Definition funnel_roas (f : funnel_sums) : float :=
  (f_revenue f / f_total_payout f)%float.

(** ** Closed forms, proved equal to the code in Part II *)

(** The derived cells of one record, from its base cells. *)
Definition engagement_rate_cell (l c rc : float) : float :=
  ((l + c) / zero_to_nan rc * 100)%float.

Definition roas_cell (r p : float) : float := (r / zero_to_nan p)%float.

Definition roi_cell (r p : float) : float :=
  ((r - p) / zero_to_nan p * 100)%float.

Definition aov_cell (r o : float) : float := (r / zero_to_nan o)%float.

(** The frame [clean_and_engineer] returns, column by column. *)
Definition engineered (d' : column) (likes comments reach rev pay orders : list float)
    (df : DataFrame) : DataFrame :=
  let eng := zip_with add likes comments in
  let roi := map (fun x => (x * 100)%float)
                 (zip_with div (zip_with sub rev pay) (map zero_to_nan pay)) in
  <["performance_category" := StrCol (map performance_category roi)]>
  (<["average_order_value" := NumCol (zip_with div rev (map zero_to_nan orders))]>
  (<["roi_percentage" := NumCol roi]>
  (<["roas" := NumCol (zip_with div rev (map zero_to_nan pay))]>
  (<["engagement_rate" :=
       NumCol (map (fun x => (x * 100)%float)
                   (zip_with div eng (map zero_to_nan reach)))]>
  (<["engagement" := NumCol eng]>
  (<["date" := d']> df)))))).

(** What normalisation needs of an upload: the date column converts, and the
    numeric columns that are present hold numbers. *)
Definition well_typed (to_datetime : column -> result column) (df : DataFrame) : Prop :=
  (forall d, df !! "date" = Some d -> exists d', to_datetime d = inr d')
  /\ Forall (numeric_if_present df) (tail read_columns).


(** ** Concrete uploads *)

(** Three records: the two of the worked example (payout 1000 and revenue
    3000, payout 500 and revenue 250) and one with no payout, no reach and no
    orders. *)
Definition example_upload : DataFrame :=
  <["date" := DateCol [Some (mkdate 2024 1 1); Some (mkdate 2024 1 4);
                       Some (mkdate 2024 2 9)]]>
  (<["name" := StrCol ["Influencer 1"; "Influencer 2"; "Influencer 3"]%string]>
  (<["platform" := StrCol ["Instagram"; "YouTube"; "Instagram"]%string]>
  (<["campaign" := StrCol ["Spring"; "New Year"; "Spring"]%string]>
  (<["category" := StrCol ["Beauty"; "Fitness"; "Beauty"]%string]>
  (<["gender" := StrCol ["Female"; "Male"; "Female"]%string]>
  (<["reach" := NumCol [10000; 8000; 0]%float]>
  (<["followers" := NumCol [11000; 8200; 500]%float]>
  (<["likes" := NumCol [350; 200; 0]%float]>
  (<["comments" := NumCol [40; 15; 0]%float]>
  (<["orders" := NumCol [27; 15; 0]%float]>
  (<["revenue" := NumCol [3000; 250; 100]%float]>
  (<["total_payout" := NumCol [1000; 500; 0]%float]>
  (<["basis" := StrCol ["Post"; "Order"; "Post"]%string]> ∅))))))))))))).

(** The same upload without its [basis] column, and without [date] and [likes]. *)
Definition upload_without_basis : DataFrame := delete "basis" example_upload.

Definition upload_without_date_likes : DataFrame :=
  delete "date" (delete "likes" example_upload).


(** The example upload, normalised. *)
Definition example_dataset : DataFrame :=
  match clean_and_engineer keep_dates example_upload with
  | inr df => df
  | inl _ => ∅
  end.

(** A cell that is present and null: NaN, hence not zero. *)
Definition null_cell (df : DataFrame) (c : string) (i : nat) : Prop :=
  exists x, cell_num df c i = Some x /\ is_nan x = true /\ (x =? 0)%float = false.

(** The four bands of the ROI ladder, lower ends included. *)
Definition in_band (cat : string) (x : float) : Prop :=
  (cat = "High Performer"%string <-> (200 <=? x)%float = true)
  /\ (cat = "Good Performer"%string
      <-> (100 <=? x)%float = true /\ (x <? 200)%float = true)
  /\ (cat = "Average Performer"%string
      <-> (0 <=? x)%float = true /\ (x <? 100)%float = true)
  /\ (cat = "Poor Performer"%string <-> (x <? 0)%float = true).


(** ** Concrete filter settings *)

(** Every option of the example dataset selected, band "All". *)
Definition select_all : FilterSpec :=
  mkFilterSpec (mkdate 2024 1 1) (mkdate 2024 2 9)
    ["New Year"; "Spring"]%string ["Instagram"; "YouTube"]%string
    ["Beauty"; "Fitness"]%string ["Female"; "Male"]%string "All"%string.

(** The same with every platform deselected. *)
Definition select_no_platform : FilterSpec :=
  mkFilterSpec (mkdate 2024 1 1) (mkdate 2024 2 9)
    ["New Year"; "Spring"]%string []
    ["Beauty"; "Fitness"]%string ["Female"; "Male"]%string "All"%string.

(** Instagram only, band "High Performer". *)
Definition select_instagram_high : FilterSpec :=
  mkFilterSpec (mkdate 2024 1 1) (mkdate 2024 2 9)
    ["New Year"; "Spring"]%string ["Instagram"]%string
    ["Beauty"; "Fitness"]%string ["Female"; "Male"]%string
    "High Performer"%string.


(** A session whose only object is the example dataset, bound to [df]. *)
Definition example_session : heap := <[1%positive := example_dataset]> ∅.


(** A view of seven records; the ROI of record 2 is unknown, record 6 stands
    out. *)
Definition outlier_view : DataFrame :=
  <["name" := StrCol ["a"; "b"; "c"; "d"; "e"; "f"; "g"]%string]>
  (<["campaign" := StrCol ["Spring"; "Spring"; "Spring"; "Spring"; "Spring";
                           "Spring"; "Spring"]%string]>
  (<["platform" := StrCol ["Instagram"; "Instagram"; "Instagram"; "Instagram";
                           "Instagram"; "Instagram"; "Instagram"]%string]>
  (<["roi_percentage" := NumCol [0; 0; nan; 0; 0; 0; 100]%float]>
  (<["revenue" := NumCol [10; 10; 10; 10; 10; 10; 20]%float]>
  (<["total_payout" := NumCol [10; 10; 0; 10; 10; 10; 10]%float]> ∅))))).

(** ROI values whose largest lies beyond two population standard deviations
    of the mean and within two sample standard deviations. *)
Definition between_the_two_deviations : list float := [0; 0; 1; 2; 2; 7]%float.




(** ** The order of a ranking *)









(** The view that holds only record 2 of the example dataset: revenue 100,
    no payout, no reach, no engagement, no orders. *)
Definition zero_view : DataFrame :=
  getitem_mask example_dataset [false; false; true].

(** A column of zeros (of either sign). *)
Definition all_zero (xs : list float) : Prop :=
  Forall (fun x => (x =? 0)%float = true) xs.


(** ** What a filter asks of a record *)

Definition cell_date (df : DataFrame) (c : string) (i : nat) : option (option date) :=
  match df !! c with
  | Some (DateCol xs) => xs !! i
  | _ => None
  end.

(** Record [i] passes the filter: its date is known and within the range,
    both ends included; its campaign, platform, category and gender are among
    the selected ones; its category is the selected band, unless the band is
    "All". *)
Definition row_passes (S : FilterSpec) (df : DataFrame) (i : nat) : Prop :=
  (exists d, cell_date df "date" i = Some (Some d)
             /\ date_leb (date_min S) d = true /\ date_leb d (date_max S) = true)
  /\ (exists c, cell_str df "campaign" i = Some c /\ in_list c (campaigns S) = true)
  /\ (exists p, cell_str df "platform" i = Some p /\ in_list p (platforms S) = true)
  /\ (exists g, cell_str df "category" i = Some g /\ in_list g (categories S) = true)
  /\ (exists s, cell_str df "gender" i = Some s /\ in_list s (genders S) = true)
  /\ (perf_band S = "All"%string
      \/ cell_str df "performance_category" i = Some (perf_band S)).


(** A date range given the wrong way round. *)
Definition select_backwards : FilterSpec :=
  mkFilterSpec (mkdate 2024 2 9) (mkdate 2024 1 1)
    ["New Year"; "Spring"]%string ["Instagram"; "YouTube"]%string
    ["Beauty"; "Fitness"]%string ["Female"; "Male"]%string "All"%string.


(** ** The sidebar's default selection (lines 97-130) *)

(** [series.min()] and [series.max()] of a date column: missing dates are
    skipped, and there is no result when no date is known. *)
Fixpoint series_min_date (xs : list (option date)) : option date :=
  match xs with
  | [] => None
  | None :: xs' => series_min_date xs'
  | Some d :: xs' =>
      match series_min_date xs' with
      | None => Some d
      | Some m => Some (if date_leb d m then d else m)
      end
  end.

Fixpoint series_max_date (xs : list (option date)) : option date :=
  match xs with
  | [] => None
  | None :: xs' => series_max_date xs'
  | Some d :: xs' =>
      match series_max_date xs' with
      | None => Some d
      | Some m => Some (if date_leb m d then d else m)
      end
  end.

(** [series.unique()]: the values in order of first appearance. *)
Fixpoint unique (xs : list string) : list string :=
  match xs with
  | [] => []
  | x :: xs' => x :: List.filter (fun y => negb (String.eqb y x)) (unique xs')
  end.

Fixpoint insert_string (x : string) (l : list string) : list string :=
  match l with
  | [] => [x]
  | y :: l' => if String.leb x y then x :: l else y :: insert_string x l'
  end.

(** [sorted(l)] on strings. *)
Definition sorted_strings (l : list string) : list string :=
  foldr insert_string [] l.

(** The options of a multiselect, [sorted(series.unique())]; the selections of
    a [FilterSpec] are strings, so the column must hold strings. *)
Definition options (c : column) : result (list string) :=
  match c with
  | StrCol xs => ok (sorted_strings (unique xs))
  | _ => raise TypeError
  end.

Definition date_bound (pick : list (option date) -> option date) (c : column)
    : result date :=
  match c with
  | DateCol xs =>
      match pick xs with
      | Some d => ok d
      | None => raise ValueError
      end
  | _ => raise TypeError
  end.

(** The filter the sidebar starts from: the whole date range, every option of
    every multiselect, band "All". *)
Definition default_filter (df : DataFrame) : result FilterSpec :=
  let* d := getcol df "date" in
  let* lo := date_bound series_min_date d in
  let* d := getcol df "date" in
  let* hi := date_bound series_max_date d in
  let* c := getcol df "campaign" in
  let* cs := options c in
  let* p := getcol df "platform" in
  let* ps := options p in
  let* g := getcol df "category" in
  let* gs := options g in
  let* s := getcol df "gender" in
  let* ss := options s in
  ok (mkFilterSpec lo hi cs ps gs ss "All").

Definition is_known (d : option date) : bool :=
  match d with
  | Some _ => true
  | None => false
  end.


(** The bands of the ladder, from the lowest to the highest. *)
Definition band_rank (cat : string) : nat :=
  if String.eqb cat "High Performer" then 3
  else if String.eqb cat "Good Performer" then 2
  else if String.eqb cat "Average Performer" then 1
  else 0.

(** Only the High band of the example dataset. *)
Definition select_high : FilterSpec :=
  mkFilterSpec (mkdate 2024 1 1) (mkdate 2024 2 9)
    ["New Year"; "Spring"]%string ["Instagram"; "YouTube"]%string
    ["Beauty"; "Fitness"]%string ["Female"; "Male"]%string
    "High Performer"%string.


(** ** Averages shown as KPIs (lines 173, 185, 187) *)

Definition avg_engagement_rate (data : DataFrame) : result float :=
  let* s := getcol data "engagement_rate" in
  series_mean s.

Definition avg_roas (data : DataFrame) : result float :=
  let* s := getcol data "roas" in
  series_mean s.

Definition avg_order_value (data : DataFrame) : result float :=
  let* s := getcol data "average_order_value" in
  series_mean s.


(** The band an ROI lies in decides the category.  Nothing is asked of an ROI
    that lies in no band (NaN). *)
Definition band_decides (cat : string) (x : float) : Prop :=
  ((200 <=? x)%float = true -> cat = "High Performer"%string)
  /\ ((100 <=? x)%float = true /\ (x <? 200)%float = true ->
      cat = "Good Performer"%string)
  /\ ((0 <=? x)%float = true /\ (x <? 100)%float = true ->
      cat = "Average Performer"%string)
  /\ ((x <? 0)%float = true -> cat = "Poor Performer"%string).

(** The example upload with the revenue cell of record 0 left blank. *)
Definition blank_revenue_upload : DataFrame :=
  <["revenue" := NumCol [nan; 250; 100]%float]> example_upload.


(* ===================================================================== *)
(** * Part II: lemmas *)
(* ===================================================================== *)

(** ** Binary64: comparison is a total preorder away from NaN *)

Import F64.

Lemma lexcmp_Lt e1 m1 e2 m2 :
  lexcmp e1 m1 e2 m2 = Lt <-> (e1 < e2 \/ (e1 = e2 /\ Zpos m1 < Zpos m2))%Z.
Proof.
  unfold lexcmp. destruct (Z.compare_spec e1 e2).
  - fold (Pos.compare m1 m2). rewrite Pos.compare_lt_iff. lia.
  - split; [lia|reflexivity].
  - split; [discriminate|lia].
Qed.

Lemma lexcmp_Gt e1 m1 e2 m2 :
  lexcmp e1 m1 e2 m2 = Gt <-> (e2 < e1 \/ (e1 = e2 /\ Zpos m2 < Zpos m1))%Z.
Proof.
  unfold lexcmp. destruct (Z.compare_spec e1 e2).
  - fold (Pos.compare m1 m2). rewrite Pos.compare_gt_iff. lia.
  - split; [discriminate|lia].
  - split; [lia|reflexivity].
Qed.

Lemma lexcmp_Eq e1 m1 e2 m2 :
  lexcmp e1 m1 e2 m2 = Eq <-> (e1 = e2 /\ m1 = m2).
Proof.
  unfold lexcmp. destruct (Z.compare_spec e1 e2).
  - fold (Pos.compare m1 m2). rewrite Pos.compare_eq_iff. intuition.
  - split; [discriminate|lia].
  - split; [discriminate|lia].
Qed.

Lemma lexcmp_trans e1 m1 e2 m2 e3 m3 r1 r2 r3 :
  lexcmp e1 m1 e2 m2 = r1 -> lexcmp e2 m2 e3 m3 = r2 -> cmp_is r1 r2 r3 ->
  lexcmp e1 m1 e3 m3 = r3.
Proof.
  intros H1 H2 H; destruct H; subst;
    repeat match goal with
    | H : lexcmp _ _ _ _ = Lt |- _ => apply lexcmp_Lt in H
    | H : lexcmp _ _ _ _ = Gt |- _ => apply lexcmp_Gt in H
    | H : lexcmp _ _ _ _ = Eq |- _ => apply lexcmp_Eq in H
    | |- lexcmp _ _ _ _ = Lt => apply lexcmp_Lt
    | |- lexcmp _ _ _ _ = Gt => apply lexcmp_Gt
    | |- lexcmp _ _ _ _ = Eq => apply lexcmp_Eq
    end.
  all: try lia.
  all: destruct H1 as [-> ->], H2 as [-> ->]; auto.
Qed.

Lemma cmp_is_sym r1 r2 r3 : cmp_is r1 r2 r3 -> cmp_is r2 r1 r3.
Proof. destruct 1; constructor. Qed.

Lemma lexcmp_opp e1 m1 e2 m2 : CompOpp (lexcmp e1 m1 e2 m2) = lexcmp e2 m2 e1 m1.
Proof.
  destruct (lexcmp e1 m1 e2 m2) eqn:E; simpl; symmetry.
  - apply lexcmp_Eq in E. apply lexcmp_Eq. intuition.
  - apply lexcmp_Lt in E. apply lexcmp_Gt. lia.
  - apply lexcmp_Gt in E. apply lexcmp_Lt. lia.
Qed.

Lemma SFcompare_trans a b c r1 r2 r3 :
  SFcompare a b = Some r1 -> SFcompare b c = Some r2 -> cmp_is r1 r2 r3 ->
  SFcompare a c = Some r3.
Proof.
  intros H1 H2 H.
  destruct a as [sa|sa| |sa ma ea], b as [sb|sb| |sb mb eb], c as [sc|sc| |sc mc ec];
    try discriminate; simpl in *.
  all: try (destruct sa; try destruct sb; try destruct sc; simpl in *;
       injection H1 as <-; injection H2 as <-; inversion H; reflexivity).
  destruct sa, sb, sc; simpl in *; injection H1 as H1; injection H2 as H2;
    try (subst; inversion H; reflexivity); f_equal.
  - assert (H1' : lexcmp eb mb ea ma = r1)
      by (rewrite <- lexcmp_opp, <- H1; unfold lexcmp; now destruct (ea ?= eb)%Z).
    assert (H2' : lexcmp ec mc eb mb = r2)
      by (rewrite <- lexcmp_opp, <- H2; unfold lexcmp; now destruct (eb ?= ec)%Z).
    transitivity (CompOpp (lexcmp ea ma ec mc));
      [unfold lexcmp; now destruct (ea ?= ec)%Z|].
    rewrite lexcmp_opp. eapply lexcmp_trans; eauto using cmp_is_sym.
  - eapply lexcmp_trans; eauto.
Qed.

Lemma SFcompare_opp a b : SFcompare b a = option_map CompOpp (SFcompare a b).
Proof.
  destruct a as [sa|sa| |sa ma ea], b as [sb|sb| |sb mb eb]; simpl; try reflexivity;
    try (destruct sa; try destruct sb; reflexivity).
  destruct sa, sb; simpl; try reflexivity; f_equal.
  - transitivity (CompOpp (lexcmp eb mb ea ma));
      [unfold lexcmp; now destruct (eb ?= ea)%Z|].
    rewrite <- (lexcmp_opp ea ma eb mb). f_equal.
    unfold lexcmp; now destruct (ea ?= eb)%Z.
  - change (lexcmp eb mb ea ma = CompOpp (lexcmp ea ma eb mb)). now rewrite lexcmp_opp.
Qed.

Lemma SFcompare_None a b : SFcompare a b = None <-> a = S754_nan \/ b = S754_nan.
Proof.
  destruct a as [sa|sa| |sa ma ea], b as [sb|sb| |sb mb eb]; simpl;
    intuition (discriminate || auto).
Qed.

Lemma SFcompare_refl a : a <> S754_nan -> SFcompare a a = Some Eq.
Proof.
  destruct a as [sa|sa| |sa ma ea]; simpl; try congruence; intros _.
  - now destruct sa.
  - assert (lexcmp ea ma ea ma = Eq) as E by now apply lexcmp_Eq.
    unfold lexcmp in E. destruct sa; f_equal; [|exact E].
    destruct (ea ?= ea)%Z; try discriminate. now rewrite E.
Qed.

(** *** Rounding never invents a NaN *)

Lemma shr_1_nonneg mrs : (0 <= shr_m mrs)%Z -> (0 <= shr_m (shr_1 mrs))%Z.
Proof. destruct mrs as [[|[p|p|]|p] r s]; simpl; lia. Qed.

Lemma iter_shr_1_nonneg p : forall mrs,
  (0 <= shr_m mrs)%Z -> (0 <= shr_m (@SpecFloat.iter_pos shr_record shr_1 p mrs))%Z.
Proof.
  induction p as [p IH|p IH|]; simpl; intros mrs H.
  - apply IH, IH, shr_1_nonneg, H.
  - apply IH, IH, H.
  - apply shr_1_nonneg, H.
Qed.

Lemma shr_fexp_nonneg m e l :
  (0 <= m)%Z -> (0 <= shr_m (fst (shr_fexp prec emax m e l)))%Z.
Proof.
  intros H. unfold shr_fexp, shr.
  assert (0 <= shr_m (shr_record_of_loc m l))%Z as H0
    by (destruct l as [|[]]; exact H).
  destruct (_ - e)%Z; simpl; auto using iter_shr_1_nonneg.
Qed.

Lemma round_nearest_even_nonneg m l :
  (0 <= m)%Z -> (0 <= round_nearest_even m l)%Z.
Proof. intros H. destruct l as [|[]]; simpl; try destruct (Z.even m); lia. Qed.

Lemma binary_round_aux_not_nan s m e l :
  (0 <= m)%Z -> binary_round_aux prec emax s m e l <> S754_nan.
Proof.
  intros H. unfold binary_round_aux.
  pose proof (shr_fexp_nonneg m e l H) as H1.
  destruct (shr_fexp prec emax m e l) as [mrs' e']. simpl in H1.
  pose proof (shr_fexp_nonneg _ e' loc_Exact
                (round_nearest_even_nonneg _ (loc_of_shr_record mrs') H1)) as H2.
  destruct (shr_fexp prec emax _ e' loc_Exact) as [mrs'' e'']. simpl in H2.
  destruct (shr_m mrs'') as [|q|q]; try discriminate; [|lia].
  destruct (e'' <=? _)%Z; discriminate.
Qed.

Lemma binary_normalize_not_nan m e sz :
  binary_normalize prec emax m e sz <> S754_nan.
Proof.
  destruct m as [|p|p]; simpl; try discriminate;
    unfold binary_round; destruct (shl_align _ _ _);
    apply binary_round_aux_not_nan; lia.
Qed.

Lemma SFsub_not_nan x y :
  sf_finite x = true -> sf_finite y = true -> SF64sub x y <> S754_nan.
Proof.
  destruct x as [sx|sx| |sx mx ex], y as [sy|sy| |sy my ey]; try discriminate;
    intros _ _; unfold SF64sub; simpl; try discriminate.
  - destruct sx, sy; discriminate.
  - apply binary_normalize_not_nan.
Qed.

Lemma SFmul_not_nan x sy my ey :
  x <> S754_nan -> SF64mul x (S754_finite sy my ey) <> S754_nan.
Proof.
  destruct x as [sx|sx| |sx mx ex]; try congruence; intros _;
    unfold SF64mul; simpl; try discriminate.
  apply binary_round_aux_not_nan; lia.
Qed.

Lemma SFdiv_not_nan x sy my ey :
  x <> S754_nan -> SF64div x (S754_finite sy my ey) <> S754_nan.
Proof.
  destruct x as [sx|sx| |sx mx ex]; try congruence; intros _;
    unfold SF64div; simpl; try discriminate.
  unfold SFdiv_core_binary.
  set (m' := match _ with Z0 => _ | Zpos _ => _ | Zneg _ => _ end).
  assert (0 <= m')%Z as Hm.
  { subst m'. destruct (_ - _ - _)%Z; try lia. apply Z.shiftl_nonneg. lia. }
  pose proof (Z.div_pos m' (Zpos my) Hm ltac:(lia)) as Hq.
  unfold Z.div in Hq. destruct (Z.div_eucl m' (Zpos my)) as [q r].
  apply binary_round_aux_not_nan. exact Hq.
Qed.


(** ** Binary64: NaN and comparison on primitive floats *)

Lemma Prim2SF_nan : Prim2SF nan = S754_nan.
Proof. reflexivity. Qed.

Lemma is_nan_spec x : is_nan x = true <-> Prim2SF x = S754_nan.
Proof.
  unfold is_nan. rewrite FloatAxioms.eqb_spec. unfold SFeqb.
  destruct (Prim2SF x) as [s|s| |s m e] eqn:E.
  - rewrite SFcompare_refl by discriminate. simpl. split; discriminate.
  - rewrite SFcompare_refl by discriminate. simpl. split; discriminate.
  - simpl. tauto.
  - rewrite SFcompare_refl by discriminate. simpl. split; discriminate.
Qed.

Lemma notnan_spec x : notnan x = true <-> Prim2SF x <> S754_nan.
Proof.
  unfold notnan. rewrite <- is_nan_spec. destruct (is_nan x); simpl; split; congruence.
Qed.

Lemma is_nan_eq x : is_nan x = true -> x = nan.
Proof. intros H. apply Prim2SF_inj. rewrite Prim2SF_nan. now apply is_nan_spec. Qed.

Lemma div_nan_r x : (x / nan)%float = nan.
Proof.
  apply Prim2SF_inj. rewrite FloatAxioms.div_spec, Prim2SF_nan.
  now destruct (Prim2SF x).
Qed.

Lemma mul_nan_l k : (nan * k)%float = nan.
Proof. apply Prim2SF_inj. now rewrite FloatAxioms.mul_spec, Prim2SF_nan. Qed.

Lemma leb_nan_r k : (k <=? nan)%float = false.
Proof.
  rewrite FloatAxioms.leb_spec, Prim2SF_nan. unfold SFleb. now destruct (Prim2SF k).
Qed.

Lemma ltb_nan_r k : (k <? nan)%float = false.
Proof.
  rewrite FloatAxioms.ltb_spec, Prim2SF_nan. unfold SFltb. now destruct (Prim2SF k).
Qed.

Lemma ltb_nan_l k : (nan <? k)%float = false.
Proof. now rewrite FloatAxioms.ltb_spec, Prim2SF_nan. Qed.

Lemma eqb_nan_l k : (nan =? k)%float = false.
Proof. now rewrite FloatAxioms.eqb_spec, Prim2SF_nan. Qed.

Lemma fcmp_some x y :
  notnan x = true -> notnan y = true -> exists c, fcmp x y = Some c.
Proof.
  intros Hx%notnan_spec Hy%notnan_spec. unfold fcmp.
  destruct (SFcompare (Prim2SF x) (Prim2SF y)) as [c|] eqn:E; [now exists c|].
  apply SFcompare_None in E. tauto.
Qed.

Lemma fcmp_opp x y : fcmp y x = option_map CompOpp (fcmp x y).
Proof. apply SFcompare_opp. Qed.

Lemma fcmp_trans x y z r1 r2 r3 :
  fcmp x y = Some r1 -> fcmp y z = Some r2 -> cmp_is r1 r2 r3 ->
  fcmp x z = Some r3.
Proof. apply SFcompare_trans. Qed.

Lemma ltb_fcmp x y : (x <? y)%float = true <-> fcmp x y = Some Lt.
Proof.
  rewrite FloatAxioms.ltb_spec. unfold SFltb, fcmp.
  destruct (SFcompare _ _) as [[]|]; split; congruence.
Qed.

Lemma leb_fcmp x y :
  (x <=? y)%float = true <-> fcmp x y = Some Lt \/ fcmp x y = Some Eq.
Proof.
  rewrite FloatAxioms.leb_spec. unfold SFleb, fcmp.
  destruct (SFcompare _ _) as [[]|]; split; intuition congruence.
Qed.

Lemma eqb_fcmp x y : (x =? y)%float = true <-> fcmp x y = Some Eq.
Proof.
  rewrite FloatAxioms.eqb_spec. unfold SFeqb, fcmp.
  destruct (SFcompare _ _) as [[]|]; split; congruence.
Qed.

(** Away from NaN, [x < y] is the negation of [y <= x]. *)
Lemma ltb_negb_leb x y :
  notnan x = true -> notnan y = true -> (x <? y)%float = negb (y <=? x)%float.
Proof.
  intros Hx Hy. destruct (fcmp_some x y Hx Hy) as [c Hc].
  pose proof (fcmp_opp x y) as Ho. rewrite Hc in Ho. simpl in Ho.
  rewrite FloatAxioms.ltb_spec, FloatAxioms.leb_spec. unfold SFltb, SFleb. unfold fcmp in Hc, Ho.
  rewrite Hc, Ho. now destruct c.
Qed.

Lemma ltb_notnan_l x y : (x <? y)%float = true -> notnan x = true.
Proof.
  intros H. apply notnan_spec. intros E. apply ltb_fcmp in H.
  unfold fcmp in H. now rewrite E in H.
Qed.

Lemma ltb_notnan_r x y : (x <? y)%float = true -> notnan y = true.
Proof.
  intros H. apply notnan_spec. intros E. apply ltb_fcmp in H.
  unfold fcmp in H. rewrite E in H. now destruct (Prim2SF x).
Qed.

Lemma leb_notnan_r x y : (x <=? y)%float = true -> notnan y = true.
Proof.
  intros H. apply notnan_spec. intros E. apply leb_fcmp in H.
  unfold fcmp in H. rewrite E in H. destruct (Prim2SF x); intuition discriminate.
Qed.


Lemma ltb_leb_trans x y z :
  (x <? y)%float = true -> (y <=? z)%float = true -> (x <? z)%float = true.
Proof.
  rewrite !ltb_fcmp, leb_fcmp. intros H1 [H2|H2];
    eapply fcmp_trans; eauto; constructor.
Qed.

Lemma leb_ltb_trans x y z :
  (x <=? y)%float = true -> (y <? z)%float = true -> (x <? z)%float = true.
Proof.
  rewrite !ltb_fcmp, leb_fcmp. intros [H1|H1] H2;
    eapply fcmp_trans; eauto; constructor.
Qed.

Lemma leb_trans x y z :
  (x <=? y)%float = true -> (y <=? z)%float = true -> (x <=? z)%float = true.
Proof.
  rewrite !leb_fcmp. intros [H1|H1] [H2|H2];
    [left|left|left|right]; eapply fcmp_trans; eauto; constructor.
Qed.

Lemma ltb_irrefl x : (x <? x)%float = false.
Proof.
  destruct (x <? x)%float eqn:E; [|reflexivity].
  pose proof (ltb_notnan_l _ _ E) as Hx%notnan_spec.
  apply ltb_fcmp in E. unfold fcmp in E.
  rewrite SFcompare_refl in E by assumption. discriminate.
Qed.

(** ** Binary64: the ROI of finite amounts with a positive payout is a number *)

Lemma finite_notnan x : finite x = true -> Prim2SF x <> S754_nan.
Proof. unfold finite. now destruct (Prim2SF x). Qed.

Lemma positive_finite_shape p :
  finite p = true -> (0 <? p)%float = true ->
  exists m e, Prim2SF p = S754_finite false m e.
Proof.
  unfold finite. rewrite FloatAxioms.ltb_spec. unfold SFltb.
  change (Prim2SF 0) with (S754_zero false).
  destruct (Prim2SF p) as [s|s| |[] m e]; simpl; try discriminate.
  intros _ _. now exists m, e.
Qed.

Lemma zero_to_nan_positive p : (0 <? p)%float = true -> zero_to_nan p = p.
Proof.
  intros H. unfold zero_to_nan.
  destruct (p =? 0)%float eqn:E; [|reflexivity].
  apply eqb_fcmp in E. apply ltb_fcmp in H.
  rewrite fcmp_opp, E in H. discriminate.
Qed.

Lemma zero_to_nan_zero p : (p =? 0)%float = true -> zero_to_nan p = nan.
Proof. intros H. unfold zero_to_nan. now rewrite H. Qed.

Lemma roi_notnan r p :
  finite r = true -> finite p = true -> (0 <? p)%float = true ->
  notnan ((r - p) / zero_to_nan p * 100)%float = true.
Proof.
  intros Hr Hp Hpos. rewrite zero_to_nan_positive by assumption.
  destruct (positive_finite_shape p Hp Hpos) as (m & e & Ep).
  apply notnan_spec. rewrite FloatAxioms.mul_spec, FloatAxioms.div_spec, FloatAxioms.sub_spec, Ep.
  change (Prim2SF 100) with (S754_finite false 7036874417766400 (-46)).
  apply SFmul_not_nan, SFdiv_not_nan. rewrite <- Ep.
  apply SFsub_not_nan; [exact Hr|exact Hp].
Qed.

(** ** The result monad and normalisation, step by step *)

Lemma bind_inr {A B} (m : result A) (k : A -> result B) b :
  bind m k = inr b -> exists a, m = inr a /\ k a = inr b.
Proof. destruct m as [e|a]; simpl; [discriminate|]. eauto. Qed.

Lemma getcol_inr df c s : getcol df c = inr s <-> df !! c = Some s.
Proof. unfold getcol, ok, raise. destruct (df !! c); split; congruence. Qed.

Lemma series_binop_inr op a b c :
  series_binop op a b = inr c ->
  exists xs ys, a = NumCol xs /\ b = NumCol ys /\ c = NumCol (zip_with op xs ys).
Proof.
  destruct a, b; simpl; try discriminate. intros [= <-]. eauto.
Qed.

Lemma replace_zero_nan_num r ys :
  replace_zero_nan r = NumCol ys -> exists xs, r = NumCol xs /\ ys = map zero_to_nan xs.
Proof. destruct r; simpl; try discriminate. intros [= <-]. eauto. Qed.

Ltac simpl_lookup H :=
  repeat first [ rewrite lookup_insert_eq in H
               | rewrite lookup_insert_ne in H by done ].

Section NormalizeFacts.
Variable to_datetime : column -> result column.

Lemma clean_and_engineer_ok df d d' likes comments reach rev pay orders :
  df !! "date" = Some d -> to_datetime d = inr d' ->
  df !! "likes" = Some (NumCol likes) ->
  df !! "comments" = Some (NumCol comments) ->
  df !! "reach" = Some (NumCol reach) ->
  df !! "revenue" = Some (NumCol rev) ->
  df !! "total_payout" = Some (NumCol pay) ->
  df !! "orders" = Some (NumCol orders) ->
  clean_and_engineer to_datetime df
  = inr (engineered d' likes comments reach rev pay orders df).
Proof.
  intros Hd Hd' Hl Hc Hr Hv Hp Ho.
  unfold clean_and_engineer, getcol.
  rewrite Hd. simpl. rewrite Hd'. simpl.
  repeat (rewrite ?lookup_insert_eq, ?lookup_insert_ne by done;
          rewrite ?Hl, ?Hc, ?Hr, ?Hv, ?Hp, ?Ho; simpl).
  reflexivity.
Qed.

Lemma clean_and_engineer_inv df df' :
  clean_and_engineer to_datetime df = inr df' ->
  exists d d' likes comments reach rev pay orders,
    df !! "date" = Some d /\ to_datetime d = inr d' /\
    df !! "likes" = Some (NumCol likes) /\
    df !! "comments" = Some (NumCol comments) /\
    df !! "reach" = Some (NumCol reach) /\
    df !! "revenue" = Some (NumCol rev) /\
    df !! "total_payout" = Some (NumCol pay) /\
    df !! "orders" = Some (NumCol orders) /\
    df' = engineered d' likes comments reach rev pay orders df.
Proof.
  intros H0. pose proof H0 as H. unfold clean_and_engineer in H.
  apply bind_inr in H as (d & Hd%getcol_inr & H).
  apply bind_inr in H as (d' & Hd' & H).
  apply bind_inr in H as (l & Hl%getcol_inr & H).
  apply bind_inr in H as (c & Hc%getcol_inr & H).
  apply bind_inr in H as (e & He & H).
  apply series_binop_inr in He as (likes & comments & -> & -> & ->).
  apply bind_inr in H as (e & He%getcol_inr & H).
  apply bind_inr in H as (r & Hr%getcol_inr & H).
  apply bind_inr in H as (q & Hq & H).
  apply series_binop_inr in Hq as (eng & rz & -> & Hrz & ->).
  apply replace_zero_nan_num in Hrz as (reach & -> & ->).
  apply bind_inr in H as (er & [= <-] & H).
  apply bind_inr in H as (rv & Hv%getcol_inr & H).
  apply bind_inr in H as (p & Hp%getcol_inr & H).
  apply bind_inr in H as (roas & Hroas & H).
  apply series_binop_inr in Hroas as (rev & pz & -> & Hpz & ->).
  apply replace_zero_nan_num in Hpz as (pay & -> & ->).
  apply bind_inr in H as (rv' & Hv'%getcol_inr & H).
  apply bind_inr in H as (p' & Hp'%getcol_inr & H).
  apply bind_inr in H as (net & Hnet & H).
  apply bind_inr in H as (p'' & Hp''%getcol_inr & H).
  apply bind_inr in H as (q & Hq & H).
  apply bind_inr in H as (roi & Hroi & H).
  apply bind_inr in H as (rv'' & Hv''%getcol_inr & H).
  apply bind_inr in H as (o & Ho%getcol_inr & H).
  apply bind_inr in H as (aov & Haov & H).
  apply series_binop_inr in Haov as (rev'' & oz & -> & Hoz & ->).
  apply replace_zero_nan_num in Hoz as (orders & -> & ->).
  simpl_lookup Hl; simpl_lookup Hc; simpl_lookup Hr; simpl_lookup Hv;
    simpl_lookup Hp; simpl_lookup Ho.
  exists d, d', likes, comments, reach, rev, pay, orders.
  rewrite (clean_and_engineer_ok df d d' likes comments reach rev pay orders
             Hd Hd' Hl Hc Hr Hv Hp Ho) in H0.
  injection H0 as <-. repeat split; assumption.
Qed.
End NormalizeFacts.

(** ** Cells of the engineered frame *)

Lemma lookup_map {A B : Type} (f : A -> B) (l : list A) (i : nat) :
  map f l !! i = option_map f (l !! i).
Proof.
  revert i. induction l as [|a l IH]; intros [|i]; simpl; auto.
Qed.

Lemma cell_num_lookup df c xs i :
  df !! c = Some (NumCol xs) -> cell_num df c i = xs !! i.
Proof. unfold cell_num. now intros ->. Qed.

Lemma cell_num_inv df c i x :
  cell_num df c i = Some x -> exists xs, df !! c = Some (NumCol xs) /\ xs !! i = Some x.
Proof.
  unfold cell_num. destruct (df !! c) as [[xs|xs|xs]|]; try discriminate. eauto.
Qed.

Section EngineeredCells.
Variables (d' : column) (likes comments reach rev pay orders : list float).
Variable df : DataFrame.

Let df' := engineered d' likes comments reach rev pay orders df.

Lemma cell_engagement_rate i l c rc :
  likes !! i = Some l -> comments !! i = Some c -> reach !! i = Some rc ->
  cell_num df' "engagement_rate" i = Some (engagement_rate_cell l c rc).
Proof.
  intros Hl Hc Hr. unfold cell_num, df', engineered. simpl.
  rewrite !lookup_insert_ne by done. rewrite lookup_insert_eq.
  rewrite lookup_map, !lookup_zip_with, lookup_map, Hl, Hc, Hr. reflexivity.
Qed.

Lemma cell_roas i r p :
  rev !! i = Some r -> pay !! i = Some p ->
  cell_num df' "roas" i = Some (roas_cell r p).
Proof.
  intros Hr Hp. unfold cell_num, df', engineered. simpl.
  rewrite !lookup_insert_ne by done. rewrite lookup_insert_eq.
  rewrite lookup_zip_with, lookup_map, Hr, Hp. reflexivity.
Qed.

Lemma cell_roi i r p :
  rev !! i = Some r -> pay !! i = Some p ->
  cell_num df' "roi_percentage" i = Some (roi_cell r p).
Proof.
  intros Hr Hp. unfold cell_num, df', engineered. simpl.
  rewrite !lookup_insert_ne by done. rewrite lookup_insert_eq.
  rewrite lookup_map, !lookup_zip_with, lookup_map, Hr, Hp. reflexivity.
Qed.

Lemma cell_aov i r o :
  rev !! i = Some r -> orders !! i = Some o ->
  cell_num df' "average_order_value" i = Some (aov_cell r o).
Proof.
  intros Hr Ho. unfold cell_num, df', engineered. simpl.
  rewrite !lookup_insert_ne by done. rewrite lookup_insert_eq.
  rewrite lookup_zip_with, lookup_map, Hr, Ho. reflexivity.
Qed.

Lemma cell_performance_category i r p :
  rev !! i = Some r -> pay !! i = Some p ->
  cell_str df' "performance_category" i = Some (performance_category (roi_cell r p)).
Proof.
  intros Hr Hp. unfold cell_str, df', engineered. simpl.
  rewrite lookup_insert_eq.
  rewrite !lookup_map, !lookup_zip_with, lookup_map, Hr, Hp. reflexivity.
Qed.

End EngineeredCells.

(** ** The threshold ladder *)

Lemma performance_category_nan : performance_category nan = "Poor Performer"%string.
Proof. reflexivity. Qed.

Lemma roas_cell_zero r p : (p =? 0)%float = true -> roas_cell r p = nan.
Proof. intros H. unfold roas_cell. now rewrite zero_to_nan_zero, div_nan_r. Qed.

Lemma roi_cell_zero r p : (p =? 0)%float = true -> roi_cell r p = nan.
Proof.
  intros H. unfold roi_cell. now rewrite zero_to_nan_zero, div_nan_r, mul_nan_l.
Qed.

Lemma aov_cell_zero r o : (o =? 0)%float = true -> aov_cell r o = nan.
Proof. intros H. unfold aov_cell. now rewrite zero_to_nan_zero, div_nan_r. Qed.

Lemma engagement_rate_cell_zero l c rc :
  (rc =? 0)%float = true -> engagement_rate_cell l c rc = nan.
Proof.
  intros H. unfold engagement_rate_cell.
  now rewrite zero_to_nan_zero, div_nan_r, mul_nan_l.
Qed.

Lemma performance_category_cases x :
  In (performance_category x)
     ["High Performer"; "Good Performer"; "Average Performer"; "Poor Performer"]%string.
Proof.
  unfold performance_category.
  destruct (200 <=? x)%float, (100 <=? x)%float, (0 <=? x)%float; simpl; auto.
Qed.

Lemma performance_category_bands x :
  notnan x = true -> in_band (performance_category x) x.
Proof.
  intros Hx. unfold in_band.
  assert (notnan 200 = true /\ notnan 100 = true /\ notnan 0 = true) as (N2 & N1 & N0)
    by (now vm_compute).
  rewrite (ltb_negb_leb x 200 Hx N2), (ltb_negb_leb x 100 Hx N1),
          (ltb_negb_leb x 0 Hx N0).
  assert ((200 <=? x)%float = true -> (100 <=? x)%float = true) as M2
    by (apply leb_trans; now vm_compute).
  assert ((100 <=? x)%float = true -> (0 <=? x)%float = true) as M1
    by (apply leb_trans; now vm_compute).
  unfold performance_category.
  destruct (200 <=? x)%float, (100 <=? x)%float, (0 <=? x)%float; simpl;
    try (specialize (M2 eq_refl)); try (specialize (M1 eq_refl));
    try discriminate; repeat split; try tauto; try discriminate;
    try (intros [? ?]; discriminate).
Qed.

(** ** Which uploads normalise *)

Ltac step :=
  cbn [bind ok raise series_binop series_scale replace_zero_nan series_apply].

Ltac look := rewrite ?lookup_insert_eq, ?lookup_insert_ne by done.

Lemma typed_columns to_datetime df :
  well_typed to_datetime df -> first_missing read_columns df = None ->
  exists d d' likes comments reach rev pay orders,
    df !! "date" = Some d /\ to_datetime d = inr d' /\
    df !! "likes" = Some (NumCol likes) /\
    df !! "comments" = Some (NumCol comments) /\
    df !! "reach" = Some (NumCol reach) /\
    df !! "revenue" = Some (NumCol rev) /\
    df !! "total_payout" = Some (NumCol pay) /\
    df !! "orders" = Some (NumCol orders).
Proof.
  intros [Hd Hn] Hm. unfold read_columns in *. simpl in Hm, Hn.
  repeat match type of Hn with
         | Forall _ (_ :: _) =>
             let H := fresh "N" in apply Forall_cons in Hn as [H Hn];
             unfold numeric_if_present in H
         end.
  destruct (df !! "date") as [d|] eqn:Ed; [|discriminate].
  destruct (df !! "likes") as [[likes|?|?]|] eqn:El; try discriminate; try contradiction.
  destruct (df !! "comments") as [[comments|?|?]|] eqn:Ec; try discriminate; try contradiction.
  destruct (df !! "reach") as [[reach|?|?]|] eqn:Er; try discriminate; try contradiction.
  destruct (df !! "revenue") as [[rev|?|?]|] eqn:Ev; try discriminate; try contradiction.
  destruct (df !! "total_payout") as [[pay|?|?]|] eqn:Ep; try discriminate; try contradiction.
  destruct (df !! "orders") as [[orders|?|?]|] eqn:Eo; try discriminate; try contradiction.
  destruct (Hd d eq_refl) as [d' Hd'].
  exists d, d', likes, comments, reach, rev, pay, orders. repeat split; auto.
Qed.

Lemma clean_and_engineer_missing to_datetime df c :
  well_typed to_datetime df -> first_missing read_columns df = Some c ->
  clean_and_engineer to_datetime df = inl (KeyError c).
Proof.
  intros [Hd Hn] Hm. unfold read_columns in *. simpl in Hm, Hn.
  repeat match type of Hn with
         | Forall _ (_ :: _) =>
             let H := fresh "N" in apply Forall_cons in Hn as [H Hn];
             unfold numeric_if_present in H
         end.
  unfold clean_and_engineer, getcol.
  destruct (df !! "date") as [d|] eqn:Ed; [|now injection Hm as <-].
  destruct (Hd d eq_refl) as [d' Hd']. step. rewrite Hd'. step.
  destruct (df !! "likes") as [[likes|?|?]|] eqn:El; try contradiction;
    [|look; rewrite El; now injection Hm as <-].
  destruct (df !! "comments") as [[comments|?|?]|] eqn:Ec; try contradiction;
    [|look; rewrite El, Ec; now injection Hm as <-].
  destruct (df !! "reach") as [[reach|?|?]|] eqn:Er; try contradiction;
    [|repeat (look; rewrite ?El, ?Ec, ?Er; step); now injection Hm as <-].
  destruct (df !! "revenue") as [[rev|?|?]|] eqn:Ev; try contradiction;
    [|repeat (look; rewrite ?El, ?Ec, ?Er, ?Ev; step); now injection Hm as <-].
  destruct (df !! "total_payout") as [[pay|?|?]|] eqn:Ep; try contradiction;
    [|repeat (look; rewrite ?El, ?Ec, ?Er, ?Ev, ?Ep; step); now injection Hm as <-].
  destruct (df !! "orders") as [[orders|?|?]|] eqn:Eo; try contradiction;
    [discriminate|].
  repeat (look; rewrite ?El, ?Ec, ?Er, ?Ev, ?Ep, ?Eo; step). now injection Hm as <-.
Qed.

(* ===================================================================== *)
(** * Part III: properties of the pipeline *)
(* ===================================================================== *)

Lemma example_normalises :
  clean_and_engineer keep_dates example_upload = inr example_dataset.
Proof. vm_cast_no_check (eq_refl (@inr exn DataFrame example_dataset)). Qed.

Lemma nan_null_cell df c i : cell_num df c i = Some nan -> null_cell df c i.
Proof. intros H. exists nan. split; [exact H|split; reflexivity]. Qed.

(** ** Zero payout *)

(** C1, as stated, fails: a record with no payout is not given an
    "Unclassified" category.  Record 2 of the example upload has payout 0 and
    comes out as "Poor Performer". *)
Lemma zero_payout_unclassified_counterexample :
  ~ (forall (df df' : DataFrame) (i : nat) (p : float),
       clean_and_engineer keep_dates df = inr df' ->
       cell_num df "total_payout" i = Some p -> (p =? 0)%float = true ->
       cell_str df' "performance_category" i = Some "Unclassified"%string).
Proof.
  intros H.
  specialize (H example_upload example_dataset 2%nat 0%float example_normalises
                eq_refl eq_refl).
  vm_compute in H. discriminate H.
Qed.

(** C1, amended: for every record with total_payout = 0 (of either sign of
    zero), the derived roas and roi_percentage are NaN, and the category is
    "Poor Performer": NaN fails each of the three threshold comparisons and
    the ladder ends in its last branch. *)
Theorem zero_payout_null_and_poor (to_datetime : column -> result column)
    (df df' : DataFrame) (i : nat) (r p : float) :
  clean_and_engineer to_datetime df = inr df' ->
  cell_num df "revenue" i = Some r ->
  cell_num df "total_payout" i = Some p ->
  (p =? 0)%float = true ->
  cell_num df' "roas" i = Some nan
  /\ cell_num df' "roi_percentage" i = Some nan
  /\ is_nan nan = true
  /\ cell_str df' "performance_category" i = Some "Poor Performer"%string.
Proof.
  intros Hn Hr Hp Hz.
  apply clean_and_engineer_inv in Hn
    as (d & d' & likes & comments & reach & rev & pay & orders &
        _ & _ & _ & _ & _ & Erev & Epay & _ & ->).
  rewrite (cell_num_lookup _ _ _ _ Erev) in Hr.
  rewrite (cell_num_lookup _ _ _ _ Epay) in Hp.
  rewrite (cell_roas _ _ _ _ _ _ _ _ _ _ _ Hr Hp),
          (cell_roi _ _ _ _ _ _ _ _ _ _ _ Hr Hp),
          (cell_performance_category _ _ _ _ _ _ _ _ _ _ _ Hr Hp).
  rewrite (roas_cell_zero _ _ Hz), (roi_cell_zero _ _ Hz).
  repeat split; reflexivity.
Qed.

Lemma zero_payout_null_and_poor_witness :
  cell_num example_dataset "roas" 2 = Some nan
  /\ cell_num example_dataset "roi_percentage" 2 = Some nan
  /\ is_nan nan = true
  /\ cell_str example_dataset "performance_category" 2 = Some "Poor Performer"%string.
Proof.
  apply (zero_payout_null_and_poor keep_dates example_upload example_dataset 2
           100%float 0%float).
  - exact example_normalises.
  - reflexivity.
  - reflexivity.
  - reflexivity.
Defined.

(** ** The ROI ladder on records with a payout *)

Lemma performance_category_band_decides x :
  band_decides (performance_category x) x.
Proof.
  unfold band_decides. split; [|split; [|split]].
  - intros H. pose proof (leb_notnan_r _ _ H) as N.
    now apply (performance_category_bands x N).
  - intros [H1 H2]. pose proof (leb_notnan_r _ _ H1) as N.
    apply (performance_category_bands x N). now split.
  - intros [H1 H2]. pose proof (leb_notnan_r _ _ H1) as N.
    apply (performance_category_bands x N). now split.
  - intros H. pose proof (ltb_notnan_l _ _ H) as N.
    now apply (performance_category_bands x N).
Qed.

(** C2: for every record with a positive payout, the category is one of High,
    Good, Average and Poor, and the band its ROI lies in decides which:
    [200, oo) High, [100, 200) Good, [0, 100) Average, (-oo, 0) Poor, each
    band closed at its lower end.  Whenever the ROI is a number the category
    is exactly the one whose band holds it, and the ROI is a number whenever
    revenue and payout are finite. *)
Theorem positive_payout_banded (to_datetime : column -> result column)
    (df df' : DataFrame) (i : nat) (r p : float) :
  clean_and_engineer to_datetime df = inr df' ->
  cell_num df "revenue" i = Some r ->
  cell_num df "total_payout" i = Some p ->
  (0 <? p)%float = true ->
  let x := ((r - p) / p * 100)%float in
  cell_num df' "roi_percentage" i = Some x
  /\ cell_str df' "performance_category" i = Some (performance_category x)
  /\ In (performance_category x)
        ["High Performer"; "Good Performer"; "Average Performer"; "Poor Performer"]%string
  /\ band_decides (performance_category x) x
  /\ (notnan x = true -> in_band (performance_category x) x)
  /\ (finite r = true -> finite p = true -> notnan x = true).
Proof.
  intros Hn Hr Hp Hpos x.
  apply clean_and_engineer_inv in Hn
    as (d & d' & likes & comments & reach & rev & pay & orders &
        _ & _ & _ & _ & _ & Erev & Epay & _ & ->).
  rewrite (cell_num_lookup _ _ _ _ Erev) in Hr.
  rewrite (cell_num_lookup _ _ _ _ Epay) in Hp.
  rewrite (cell_roi _ _ _ _ _ _ _ _ _ _ _ Hr Hp),
          (cell_performance_category _ _ _ _ _ _ _ _ _ _ _ Hr Hp).
  assert (roi_cell r p = x) as ->
    by (unfold roi_cell; now rewrite zero_to_nan_positive).
  split; [reflexivity|]. split; [reflexivity|].
  split; [apply performance_category_cases|].
  split; [apply performance_category_band_decides|].
  split; [apply performance_category_bands|].
  intros Fr Fp. pose proof (roi_notnan r p Fr Fp Hpos) as N.
  now rewrite zero_to_nan_positive in N.
Qed.

(** The worked example: payout 1000 with revenue 3000 is ROI 200.0, High;
    payout 500 with revenue 250 is ROI -50.0, Poor. *)
Lemma positive_payout_banded_witness :
  (cell_num example_dataset "roi_percentage" 0 = Some 200%float
   /\ cell_str example_dataset "performance_category" 0
      = Some "High Performer"%string)
  /\ (cell_num example_dataset "roi_percentage" 1 = Some (-50)%float
      /\ cell_str example_dataset "performance_category" 1
         = Some "Poor Performer"%string).
Proof.
  destruct (positive_payout_banded keep_dates example_upload example_dataset 0
              3000%float 1000%float example_normalises eq_refl eq_refl eq_refl)
    as (H1 & H2 & _).
  destruct (positive_payout_banded keep_dates example_upload example_dataset 1
              250%float 500%float example_normalises eq_refl eq_refl eq_refl)
    as (K1 & K2 & _).
  split; split; [exact H1|exact H2|exact K1|exact K2].
Defined.

(** A record with a payout and a blank revenue cell has no ROI: it lies in no
    band, and the ladder ends in its last branch. *)
Example blank_revenue_is_poor :
  exists df',
    clean_and_engineer keep_dates blank_revenue_upload = inr df'
    /\ cell_num df' "roi_percentage" 0 = Some nan
    /\ cell_str df' "performance_category" 0 = Some "Poor Performer"%string.
Proof.
  exists (match clean_and_engineer keep_dates blank_revenue_upload with
          | inr d => d
          | inl _ => ∅
          end).
  split; [|split].
  - vm_cast_no_check (eq_refl (clean_and_engineer keep_dates blank_revenue_upload)).
  - vm_cast_no_check (eq_refl (Some nan)).
  - vm_cast_no_check (eq_refl (Some "Poor Performer"%string)).
Qed.

(** The bands of the ladder exclude one another and leave no number out. *)
Lemma bands_partition x :
  notnan x = true ->
  ((200 <=? x)%float = true
   \/ ((100 <=? x)%float = true /\ (x <? 200)%float = true)
   \/ ((0 <=? x)%float = true /\ (x <? 100)%float = true)
   \/ (x <? 0)%float = true)
  /\ forall c1 c2, in_band c1 x -> in_band c2 x ->
       In c1 ["High Performer"; "Good Performer"; "Average Performer"; "Poor Performer"]%string ->
       In c2 ["High Performer"; "Good Performer"; "Average Performer"; "Poor Performer"]%string ->
       c1 = c2.
Proof.
  intros Hx. split.
  - destruct (performance_category_bands x Hx) as (B1 & B2 & B3 & B4).
    destruct (performance_category_cases x) as [E|[E|[E|[E|[]]]]]; symmetry in E.
    + left. now apply B1.
    + right; left. now apply B2.
    + right; right; left. now apply B3.
    + right; right; right. now apply B4.
  - intros c1 c2 B1 B2 I1 I2.
    destruct (performance_category_bands x Hx) as (P1 & P2 & P3 & P4).
    assert (forall c, in_band c x ->
              In c ["High Performer"; "Good Performer"; "Average Performer";
                    "Poor Performer"]%string ->
              c = performance_category x) as U.
    { intros c (C1 & C2 & C3 & C4) [<-|[<-|[<-|[<-|[]]]]]; symmetry.
      - apply P1, C1; reflexivity.
      - apply P2, C2; reflexivity.
      - apply P3, C3; reflexivity.
      - apply P4, C4; reflexivity. }
    now rewrite (U c1 B1 I1), (U c2 B2 I2).
Qed.

(** ** Zero denominators *)

(** C3: an upload that has the columns normalisation reads, well typed,
    always normalises (a zero denominator raises nothing), and for every
    record a zero reach, payout or orders leaves the dependent metric null:
    the cell is NaN, not zero. *)
Theorem zero_denominator_is_null (to_datetime : column -> result column)
    (df : DataFrame) :
  well_typed to_datetime df -> first_missing read_columns df = None ->
  exists df', clean_and_engineer to_datetime df = inr df'
    /\ forall i l c rc r p o,
         cell_num df "likes" i = Some l -> cell_num df "comments" i = Some c ->
         cell_num df "reach" i = Some rc -> cell_num df "revenue" i = Some r ->
         cell_num df "total_payout" i = Some p -> cell_num df "orders" i = Some o ->
         ((rc =? 0)%float = true -> null_cell df' "engagement_rate" i)
         /\ ((p =? 0)%float = true ->
             null_cell df' "roas" i /\ null_cell df' "roi_percentage" i)
         /\ ((o =? 0)%float = true -> null_cell df' "average_order_value" i).
Proof.
  intros Ht Hm.
  destruct (typed_columns to_datetime df Ht Hm)
    as (d & d' & likes & comments & reach & rev & pay & orders &
        Ed & Ed' & El & Ec & Er & Ev & Ep & Eo).
  eexists. split.
  - apply (clean_and_engineer_ok to_datetime df d d' likes comments reach rev pay
             orders); assumption.
  - intros i l c rc r p o Hl Hc Hr Hv Hp Ho.
    rewrite (cell_num_lookup _ _ _ _ El) in Hl.
    rewrite (cell_num_lookup _ _ _ _ Ec) in Hc.
    rewrite (cell_num_lookup _ _ _ _ Er) in Hr.
    rewrite (cell_num_lookup _ _ _ _ Ev) in Hv.
    rewrite (cell_num_lookup _ _ _ _ Ep) in Hp.
    rewrite (cell_num_lookup _ _ _ _ Eo) in Ho.
    split; [|split].
    + intros Z. apply nan_null_cell.
      rewrite (cell_engagement_rate _ _ _ _ _ _ _ _ _ _ _ _ Hl Hc Hr).
      now rewrite (engagement_rate_cell_zero _ _ _ Z).
    + intros Z. split; apply nan_null_cell.
      * rewrite (cell_roas _ _ _ _ _ _ _ _ _ _ _ Hv Hp).
        now rewrite (roas_cell_zero _ _ Z).
      * rewrite (cell_roi _ _ _ _ _ _ _ _ _ _ _ Hv Hp).
        now rewrite (roi_cell_zero _ _ Z).
    + intros Z. apply nan_null_cell.
      rewrite (cell_aov _ _ _ _ _ _ _ _ _ _ _ Hv Ho).
      now rewrite (aov_cell_zero _ _ Z).
Qed.

Lemma example_upload_well_typed : well_typed keep_dates example_upload.
Proof.
  split.
  - intros d Hd. vm_compute in Hd. injection Hd as <-. eexists. reflexivity.
  - repeat (constructor; [vm_compute; exact I|]). constructor.
Qed.

(** Record 2 of the example upload has reach, payout and orders all zero. *)
Lemma zero_denominator_is_null_witness :
  exists df', clean_and_engineer keep_dates example_upload = inr df'
    /\ null_cell df' "engagement_rate" 2
    /\ null_cell df' "roas" 2 /\ null_cell df' "roi_percentage" 2
    /\ null_cell df' "average_order_value" 2.
Proof.
  destruct (zero_denominator_is_null keep_dates example_upload
              example_upload_well_typed eq_refl) as (df' & Hn & H).
  exists df'. split; [exact Hn|].
  destruct (H 2%nat 0%float 0%float 0%float 100%float 0%float 0%float
              eq_refl eq_refl eq_refl eq_refl eq_refl eq_refl)
    as (H1 & H2 & H3).
  destruct (H2 eq_refl) as [H2a H2b].
  repeat split; [exact (H1 eq_refl)|exact H2a|exact H2b|exact (H3 eq_refl)].
Defined.

(** ** Missing columns *)

(** C8, as stated, fails twice over.  An upload without its [basis] column,
    one of the fourteen, normalises without any error; and an upload without
    [date] and [likes] is refused with a KeyError that names [date] alone. *)
Lemma missing_columns_counterexample :
  (In "basis"%string required_columns
   /\ upload_without_basis !! "basis"%string = None
   /\ exists df', clean_and_engineer keep_dates upload_without_basis = inr df')
  /\ (upload_without_date_likes !! "date"%string = None
      /\ upload_without_date_likes !! "likes"%string = None
      /\ clean_and_engineer keep_dates upload_without_date_likes
         = inl (KeyError "date")).
Proof.
  split; [split; [|split]|split; [|split]].
  - unfold required_columns. simpl. tauto.
  - reflexivity.
  - exists (match clean_and_engineer keep_dates upload_without_basis with
            | inr d => d
            | inl _ => ∅
            end).
    vm_cast_no_check (eq_refl (clean_and_engineer keep_dates upload_without_basis)).
  - reflexivity.
  - reflexivity.
  - vm_cast_no_check (eq_refl (@inl exn DataFrame (KeyError "date"))).
Qed.

(** C8, amended: normalisation checks no schema.  On an upload whose present
    columns are well typed it fails exactly when one of the seven columns it
    reads (date, likes, comments, reach, revenue, total_payout, orders) is
    missing, with a KeyError that names the first missing one in that order
    and no other; the remaining seven documented columns are not looked at. *)
Theorem normalisation_fails_on_first_missing (to_datetime : column -> result column)
    (df : DataFrame) :
  well_typed to_datetime df ->
  match first_missing read_columns df with
  | Some c => clean_and_engineer to_datetime df = inl (KeyError c)
  | None => exists df', clean_and_engineer to_datetime df = inr df'
  end.
Proof.
  intros Ht. destruct (first_missing read_columns df) as [c|] eqn:Hm.
  - now apply clean_and_engineer_missing.
  - destruct (typed_columns to_datetime df Ht Hm)
      as (d & d' & likes & comments & reach & rev & pay & orders &
          Ed & Ed' & El & Ec & Er & Ev & Ep & Eo).
    eexists.
    apply (clean_and_engineer_ok to_datetime df d d' likes comments reach rev pay
             orders); assumption.
Qed.

Lemma upload_without_date_likes_well_typed :
  well_typed keep_dates upload_without_date_likes.
Proof.
  split.
  - intros d Hd. vm_compute in Hd. discriminate Hd.
  - repeat (constructor; [vm_compute; exact I|]). constructor.
Qed.

Lemma normalisation_fails_on_first_missing_witness :
  clean_and_engineer keep_dates upload_without_date_likes = inl (KeyError "date").
Proof.
  exact (normalisation_fails_on_first_missing keep_dates upload_without_date_likes
           upload_without_date_likes_well_typed).
Defined.

(** ** Filtering *)

Lemma select_nil_r {A : Type} (m : list bool) : select m (@nil A) = [].
Proof. now destruct m as [|[] m]. Qed.

Lemma select_map {A B : Type} (f : A -> B) (m : list bool) (xs : list A) :
  select m (map f xs) = map f (select m xs).
Proof.
  revert xs. induction m as [|b m IH]; intros [|x xs]; simpl; auto.
  destruct b; simpl; now rewrite IH.
Qed.

Lemma select_zip_with {A B C : Type} (f : A -> B -> C) (m : list bool)
    (xs : list A) (ys : list B) :
  select m (zip_with f xs ys) = zip_with f (select m xs) (select m ys).
Proof.
  revert xs ys. induction m as [|b m IH]; intros [|x xs] [|y ys];
    try reflexivity.
  - simpl. destruct b; now rewrite ?select_nil_r, zip_with_nil_r.
  - simpl. destruct b; simpl; now rewrite IH.
Qed.

Lemma select_select {A : Type} (m : list bool) (xs : list A) :
  select (select m m) (select m xs) = select m xs.
Proof.
  revert xs. induction m as [|b m IH]; intros [|x xs]; simpl; auto.
  - destruct b; simpl; now rewrite ?select_nil_r.
  - destruct b; simpl; now rewrite IH.
Qed.

Lemma select_all_false {A : Type} (m : list bool) (xs : list A) :
  Forall (fun b => b = false) m -> select m xs = [].
Proof.
  intros H. revert xs. induction H as [|b m -> _ IH]; intros [|x xs]; simpl; auto.
Qed.

Lemma col_select_select m c :
  col_select (select m m) (col_select m c) = col_select m c.
Proof. destruct c; simpl; now rewrite select_select. Qed.

Lemma getitem_mask_twice df m :
  getitem_mask (getitem_mask df m) (select m m) = getitem_mask df m.
Proof.
  unfold getitem_mask. rewrite <- map_fmap_compose.
  apply map_fmap_ext. intros k c _. apply col_select_select.
Qed.

Lemma getcol_getitem_mask df m c s :
  getcol df c = inr s -> getcol (getitem_mask df m) c = inr (col_select m s).
Proof.
  rewrite !getcol_inr. unfold getitem_mask. rewrite lookup_fmap.
  now intros ->.
Qed.

Lemma dt_date_between_select lo hi m c b :
  dt_date_between lo hi c = inr b ->
  dt_date_between lo hi (col_select m c) = inr (select m b).
Proof.
  destruct c; simpl; try discriminate. intros [= <-].
  unfold ok. now rewrite select_map.
Qed.

Lemma isin_select sel m c : isin sel (col_select m c) = select m (isin sel c).
Proof. destruct c; simpl; now rewrite select_map. Qed.

Lemma series_eq_select s m c :
  series_eq s (col_select m c) = select m (series_eq s c).
Proof. destruct c; simpl; now rewrite select_map. Qed.

Lemma mask_and_select m a b :
  mask_and (select m a) (select m b) = select m (mask_and a b).
Proof. unfold mask_and. now rewrite select_zip_with. Qed.

(** The mask of a view taken with [m0] is the mask of the frame, at the rows
    [m0] keeps. *)
Lemma flt_getitem_mask S df m0 m :
  flt S df = inr m -> flt S (getitem_mask df m0) = inr (select m0 m).
Proof.
  unfold flt. intros H.
  apply bind_inr in H as (d & Hd & H).
  apply bind_inr in H as (m1 & Hm1 & H).
  apply bind_inr in H as (c & Hc & H).
  apply bind_inr in H as (p & Hp & H).
  apply bind_inr in H as (g & Hg & H).
  apply bind_inr in H as (s & Hs & H).
  rewrite (getcol_getitem_mask _ m0 _ _ Hd). cbn [bind].
  rewrite (dt_date_between_select _ _ m0 _ _ Hm1). cbn [bind].
  rewrite (getcol_getitem_mask _ m0 _ _ Hc), (getcol_getitem_mask _ m0 _ _ Hp),
          (getcol_getitem_mask _ m0 _ _ Hg), (getcol_getitem_mask _ m0 _ _ Hs).
  cbn [bind]. rewrite !isin_select, !mask_and_select.
  destruct (String.eqb (perf_band S) "All").
  - injection H as <-. reflexivity.
  - apply bind_inr in H as (pc & Hpc & H). injection H as <-.
    rewrite (getcol_getitem_mask _ m0 _ _ Hpc). cbn [bind].
    now rewrite series_eq_select, mask_and_select.
Qed.

Lemma mask_and_false_l a b :
  Forall (fun x => x = false) a -> Forall (fun x => x = false) (mask_and a b).
Proof.
  intros H. revert b. induction H as [|x a -> _ IH]; intros [|y b]; simpl;
    constructor; auto.
Qed.

Lemma mask_and_false_r a b :
  Forall (fun x => x = false) b -> Forall (fun x => x = false) (mask_and a b).
Proof.
  intros H. revert a. induction H as [|x b -> _ IH]; intros [|y a]; simpl;
    constructor; auto using andb_false_r.
Qed.

Lemma isin_nil c : Forall (fun x => x = false) (isin [] c).
Proof.
  destruct c as [xs|xs|xs]; simpl; induction xs; simpl; constructor; auto.
Qed.

Lemma getitem_mask_all_false df m :
  Forall (fun x => x = false) m -> df_empty (getitem_mask df m).
Proof.
  intros H. unfold df_empty, getitem_mask.
  apply map_Forall_fmap. intros k c _. simpl.
  destruct c; simpl; now rewrite select_all_false.
Qed.

(** ** Filtering twice *)

(** C4: filtering is idempotent, filter(filter(D, S), S) = filter(D, S); an
    error of the first filtering is the error of the whole. *)
Theorem filter_idempotent (S : FilterSpec) (df : DataFrame) :
  (let* view := data S df in data S view) = data S df.
Proof.
  destruct (data S df) as [e|view] eqn:E; [reflexivity|]. cbn [bind].
  unfold data in E. apply bind_inr in E as (m & Hm & [= <-]).
  unfold data. rewrite (flt_getitem_mask S df m m Hm). cbn [bind].
  unfold ok. now rewrite getitem_mask_twice.
Qed.

Example filter_idempotent_example :
  let view := getitem_mask example_dataset [true; false; false] in
  data select_instagram_high example_dataset = inr view
  /\ data select_instagram_high view = inr view
  /\ view !! "name"%string = Some (StrCol ["Influencer 1"%string]).
Proof.
  intros view.
  assert (data select_instagram_high example_dataset = inr view) as E
    by (vm_cast_no_check (eq_refl (@inr exn DataFrame view))).
  split; [exact E|]. split.
  - pose proof (filter_idempotent select_instagram_high example_dataset) as H.
    rewrite E in H. exact H.
  - vm_cast_no_check (eq_refl (Some (StrCol ["Influencer 1"%string]))).
Qed.

(** ** Empty selections *)

(** C5: when the permitted set of one of the multiselect fields (campaign,
    platform, category, gender) is empty, the view has no row, whatever the
    other settings are. *)
Theorem empty_selection_empty_view (S : FilterSpec) (df view : DataFrame) :
  campaigns S = [] \/ platforms S = [] \/ categories S = [] \/ genders S = [] ->
  data S df = inr view ->
  df_empty view.
Proof.
  intros Hsel H. unfold data in H. apply bind_inr in H as (m & Hm & [= <-]).
  apply getitem_mask_all_false.
  unfold flt in Hm.
  apply bind_inr in Hm as (d & _ & Hm).
  apply bind_inr in Hm as (m1 & _ & Hm).
  apply bind_inr in Hm as (c & _ & Hm).
  apply bind_inr in Hm as (p & _ & Hm).
  apply bind_inr in Hm as (g & _ & Hm).
  apply bind_inr in Hm as (s & _ & Hm).
  assert (Forall (fun x => x = false)
            (mask_and (mask_and (mask_and (mask_and m1 (isin (campaigns S) c))
                                          (isin (platforms S) p))
                                (isin (categories S) g))
                      (isin (genders S) s))) as F.
  { destruct Hsel as [-> | [-> | [-> | ->]]].
    - do 3 apply mask_and_false_l. apply mask_and_false_r, isin_nil.
    - do 2 apply mask_and_false_l. apply mask_and_false_r, isin_nil.
    - apply mask_and_false_l, mask_and_false_r, isin_nil.
    - apply mask_and_false_r, isin_nil. }
  destruct (String.eqb (perf_band S) "All").
  - injection Hm as <-. exact F.
  - apply bind_inr in Hm as (pc & _ & [= <-]). now apply mask_and_false_l.
Qed.

Lemma data_no_platform :
  data select_no_platform example_dataset
  = inr (getitem_mask example_dataset [false; false; false]).
Proof.
  vm_cast_no_check
    (eq_refl (@inr exn DataFrame
                (getitem_mask example_dataset [false; false; false]))).
Qed.

Lemma empty_selection_empty_view_witness :
  platforms select_no_platform = []
  /\ df_empty (getitem_mask example_dataset [false; false; false]).
Proof.
  split; [reflexivity|].
  apply (empty_selection_empty_view select_no_platform example_dataset).
  - right; left; reflexivity.
  - exact data_no_platform.
Defined.

(** With every option selected the same dataset keeps all three rows. *)
Example select_all_keeps_rows :
  data select_all example_dataset = inr example_dataset.
Proof. vm_cast_no_check (eq_refl (@inr exn DataFrame example_dataset)). Qed.

(** ** The session heap *)

Lemma pbind_inr {A B : Type} (m : prog A) (k : A -> prog B) h b h' :
  pbind m k h = inr (b, h') ->
  exists a h0, m h = inr (a, h0) /\ k a h0 = inr (b, h').
Proof.
  unfold pbind. destruct (m h) as [e|[a h0]]; [discriminate|]. eauto.
Qed.

Lemma lift_inr {A : Type} (r : result A) h a h' :
  lift r h = inr (a, h') -> r = inr a /\ h' = h.
Proof. unfold lift. destruct r; [discriminate|]. now intros [= -> ->]. Qed.

Lemma load_inr l (h : heap) df h' :
  load l h = inr (df, h') -> h !! l = Some df /\ h' = h.
Proof.
  unfold load. destruct (h !! l); [|discriminate]. now intros [= -> ->].
Qed.

Lemma alloc_inr df (h : heap) l h' :
  alloc df h = inr (l, h') -> h !! l = None /\ h' = <[l := df]> h.
Proof.
  unfold alloc, ok. intros [= <- <-]. split; [|reflexivity].
  apply not_elem_of_dom, is_fresh.
Qed.

Lemma setitem_inr l c s (h : heap) u h' :
  setitem l c s h = inr (u, h') ->
  exists df, h !! l = Some df /\ h' = <[l := <[c := s]> df]> h.
Proof.
  unfold setitem. destruct (h !! l) as [df|]; [|discriminate].
  intros [= _ <-]. eauto.
Qed.

(** [data = df[flt]] binds [data] to a new object and changes no other. *)
Lemma run_filter_inr S df_ref (h : heap) data_ref h' :
  run_filter S df_ref h = inr (data_ref, h') ->
  exists D view,
    h !! df_ref = Some D /\ data S D = inr view /\
    h !! data_ref = None /\ h' = <[data_ref := view]> h.
Proof.
  unfold run_filter. intros H.
  apply pbind_inr in H as (D & h0 & [HD ->]%load_inr & H).
  apply pbind_inr in H as (view & h1 & [Hv ->]%lift_inr & H).
  apply alloc_inr in H as [Hf ->]. eauto 6.
Qed.

(** The column assignment changes the object it is made on and no other. *)
Lemma add_year_month_inr data_ref (h : heap) u h' :
  add_year_month data_ref h = inr (u, h') ->
  exists V ym, h !! data_ref = Some V /\ h' = <[data_ref := <["year_month" := ym]> V]> h.
Proof.
  unfold add_year_month. intros H.
  apply pbind_inr in H as (V & h0 & [HV ->]%load_inr & H).
  apply pbind_inr in H as (d & h1 & [_ ->]%lift_inr & H).
  apply pbind_inr in H as (ym & h2 & [_ ->]%lift_inr & H).
  apply setitem_inr in H as (V' & HV' & ->).
  rewrite HV in HV'. injection HV' as <-. eauto.
Qed.

(** ** Filtering leaves the dataset alone *)

(** C9: computing the view does not change the normalised dataset.  After
    [data = df[flt]] the object bound to [df] holds the frame it held before,
    the view is another object, and the later in-place assignment of
    [year_month] to the view (line 429) does not reach the dataset either. *)
Theorem filter_preserves_dataset (S : FilterSpec) (df_ref data_ref : positive)
    (D : DataFrame) (h h' : heap) :
  h !! df_ref = Some D ->
  run_filter S df_ref h = inr (data_ref, h') ->
  data_ref <> df_ref
  /\ h' !! df_ref = Some D
  /\ (forall l, l <> data_ref -> h' !! l = h !! l)
  /\ (exists view, data S D = inr view /\ h' !! data_ref = Some view)
  /\ forall u h'', add_year_month data_ref h' = inr (u, h'') ->
       h'' !! df_ref = Some D
       /\ exists view ym,
            h' !! data_ref = Some view
            /\ h'' !! data_ref = Some (<["year_month" := ym]> view).
Proof.
  intros HD H.
  apply run_filter_inr in H as (D' & view & HD' & Hv & Hf & ->).
  rewrite HD in HD'. injection HD' as <-.
  assert (data_ref <> df_ref) as Hne by (intros ->; congruence).
  split; [exact Hne|]. split; [now rewrite lookup_insert_ne|].
  split; [intros l Hl; now rewrite lookup_insert_ne|].
  split; [exists view; split; [exact Hv|now rewrite lookup_insert_eq]|].
  intros u h'' H.
  apply add_year_month_inr in H as (V & ym & HV & ->).
  split; [now rewrite !lookup_insert_ne|].
  exists V, ym. split; [exact HV|now rewrite lookup_insert_eq].
Qed.

Lemma example_run_filter :
  run_filter select_instagram_high 1 example_session
  = inr (2%positive,
         <[2%positive := getitem_mask example_dataset [true; false; false]]>
           example_session).
Proof.
  vm_cast_no_check
    (eq_refl (@inr exn (positive * heap)
                (2%positive,
                 <[2%positive := getitem_mask example_dataset [true; false; false]]>
                   example_session))).
Qed.

Lemma filter_preserves_dataset_witness :
  2%positive <> 1%positive
  /\ (<[2%positive := getitem_mask example_dataset [true; false; false]]>
        example_session) !! 1%positive = Some example_dataset.
Proof.
  destruct (filter_preserves_dataset select_instagram_high 1 2
              example_dataset example_session _
              (lookup_insert_eq _ _ _) example_run_filter) as (H1 & H2 & _).
  split; [exact H1|exact H2].
Defined.

(** ** Outliers *)




Lemma zip_with_map_same {A B C D : Type} (f : B -> C -> D) (g : A -> B)
    (k : A -> C) (l : list A) :
  zip_with f (map g l) (map k l) = map (fun x => f (g x) (k x)) l.
Proof. induction l as [|a l IH]; simpl; [reflexivity|now rewrite IH]. Qed.

Lemma select_map_filter {A : Type} (p : A -> bool) (l : list A) :
  select (map p l) l = List.filter p l.
Proof.
  induction l as [|a l IH]; simpl; [reflexivity|].
  destruct (p a); now rewrite IH.
Qed.

Lemma is_outlier_alt vals x :
  Spec.is_outlier vals x
  = ((Spec.mean vals + 2 * Spec.sample_std vals <? x)
     || (x <? Spec.mean vals - 2 * Spec.sample_std vals))%float.
Proof.
  unfold Spec.is_outlier, notnan. destruct (is_nan x) eqn:E; [|reflexivity].
  apply is_nan_eq in E. subst x. now rewrite ltb_nan_r, ltb_nan_l.
Qed.

Lemma outlier_mask_spec data rois :
  data !! "roi_percentage" = Some (NumCol rois) ->
  outlier_mask data = inr (map (Spec.is_outlier (dropna rois)) rois).
Proof.
  intros H. unfold outlier_mask, getcol. rewrite H.
  cbn [bind ok series_mean series_std series_values series_gt series_lt].
  unfold mask_or.
  destruct (length (dropna rois) <=? 1)%nat eqn:L;
    cbn [bind ok]; rewrite zip_with_map_same; unfold ok; f_equal.
  - apply List.map_ext. intros x. rewrite is_outlier_alt.
    unfold Spec.sample_std, Spec.mean. now rewrite L.
  - apply List.map_ext. intros x. rewrite is_outlier_alt.
    unfold Spec.sample_std, Spec.sample_variance, Spec.mean. now rewrite L.
Qed.

Lemma project_lookup cols df out c :
  project cols df = inr out ->
  out !! c = if in_list c cols then df !! c else None.
Proof.
  unfold project.
  destruct (List.filter _ cols) as [|c0 miss] eqn:F; [|discriminate].
  intros [= <-].
  assert (forall a, In a cols -> is_Some (df !! a)) as P.
  { intros a Ha. destruct (df !! a) eqn:E; [eauto|].
    assert (In a (List.filter
                    (fun c => negb (bool_decide (is_Some (df !! c)))) cols)) as I.
    { apply filter_In. split; [exact Ha|]. rewrite E.
      apply negb_true_iff, bool_decide_eq_false. now intros [? ?]. }
    rewrite F in I. destruct I. }
  clear F. induction cols as [|a cols IH]; simpl.
  - apply lookup_empty.
  - destruct (P a (or_introl eq_refl)) as [s Hs]. rewrite Hs.
    destruct (String.eqb_spec c a) as [->|Hne]; simpl.
    + now rewrite lookup_insert_eq.
    + rewrite lookup_insert_ne by congruence.
      apply IH. intros b Hb. apply P. now right.
Qed.


(** ** Properties of the outlier table (lines 456-459) *)

(** The rows of [outlier_df] are the rows of the view whose ROI is known and
    lies more than two sample standard deviations (ddof = 1) from the mean,
    mean and deviation being taken over the known ROI values only; the table
    has the six listed columns and no other. *)
Theorem outlier_df_rows (view out : DataFrame) (rois : list float) :
  view !! "roi_percentage" = Some (NumCol rois) ->
  outlier_df view = inr out ->
  let keep := map (Spec.is_outlier (dropna rois)) rois in
  out !! "roi_percentage"
  = Some (NumCol (List.filter (Spec.is_outlier (dropna rois)) rois))
  /\ forall c,
       out !! c
       = if in_list c ["name"; "campaign"; "platform"; "roi_percentage";
                       "revenue"; "total_payout"]%string
         then col_select keep <$> view !! c
         else None.
Proof.
  intros Hr H keep. unfold outlier_df in H.
  rewrite (outlier_mask_spec view rois Hr) in H. cbn [bind] in H. fold keep in H.
  assert (forall c,
            out !! c
            = if in_list c ["name"; "campaign"; "platform"; "roi_percentage";
                            "revenue"; "total_payout"]%string
              then col_select keep <$> view !! c
              else None) as P.
  { intros c. rewrite (project_lookup _ _ _ c H).
    destruct (in_list c _); [|reflexivity].
    unfold getitem_mask. now rewrite lookup_fmap. }
  split; [|exact P].
  rewrite (P "roi_percentage"%string). change (in_list _ _) with true. cbv iota.
  rewrite Hr. simpl. unfold keep. now rewrite select_map_filter.
Qed.

Lemma outlier_view_table :
  outlier_df outlier_view
  = inr (<["name" := StrCol ["g"%string]]>
         (<["campaign" := StrCol ["Spring"%string]]>
         (<["platform" := StrCol ["Instagram"%string]]>
         (<["roi_percentage" := NumCol [100%float]]>
         (<["revenue" := NumCol [20%float]]>
         (<["total_payout" := NumCol [10%float]]> ∅)))))).
Proof.
  vm_cast_no_check
    (eq_refl (@inr exn DataFrame
       (<["name" := StrCol ["g"%string]]>
       (<["campaign" := StrCol ["Spring"%string]]>
       (<["platform" := StrCol ["Instagram"%string]]>
       (<["roi_percentage" := NumCol [100%float]]>
       (<["revenue" := NumCol [20%float]]>
       (<["total_payout" := NumCol [10%float]]> ∅)))))))).
Qed.

Lemma outlier_view_roi :
  outlier_view !! "roi_percentage"%string
  = Some (NumCol [0; 0; nan; 0; 0; 0; 100]%float).
Proof. vm_cast_no_check (eq_refl (Some (NumCol [0; 0; nan; 0; 0; 0; 100]%float))). Qed.

(** In the seven-record view only the record with ROI 100 is an outlier. *)
Lemma outlier_df_rows_witness :
  (<["name" := StrCol ["g"%string]]>
   (<["campaign" := StrCol ["Spring"%string]]>
   (<["platform" := StrCol ["Instagram"%string]]>
   (<["roi_percentage" := NumCol [100%float]]>
   (<["revenue" := NumCol [20%float]]>
   (<["total_payout" := NumCol [10%float]]> (∅ : DataFrame)))))))
  !! "roi_percentage"%string
  = Some (NumCol (List.filter
                    (Spec.is_outlier (dropna [0; 0; nan; 0; 0; 0; 100]%float))
                    [0; 0; nan; 0; 0; 0; 100]%float)).
Proof.
  exact (proj1 (outlier_df_rows outlier_view _ _ outlier_view_roi
                  outlier_view_table)).
Defined.




(** The deviation is the sample one: 7 lies beyond two population standard
    deviations of [0; 0; 1; 2; 2; 7] and is no outlier. *)
Example sample_not_population :
  (Spec.mean between_the_two_deviations
   + 2 * Spec.population_std between_the_two_deviations <? 7)%float = true
  /\ outlier_mask (<["roi_percentage" := NumCol between_the_two_deviations]> ∅)
     = inr [false; false; false; false; false; false].
Proof.
  split.
  - vm_compute. reflexivity.
  - vm_cast_no_check
      (eq_refl (@inr exn (list bool) [false; false; false; false; false; false])).
Qed.

(** ** Ranking: insertion keeps the order *)

Section SortBy.

Variable before : float -> float -> bool.

Hypothesis before_trans : forall a b c,
  before a b = true -> before b c = true -> before a c = true.

Hypothesis before_negtrans : forall a b c,
  notnan a = true -> notnan b = true -> notnan c = true ->
  before a b = false -> before b c = false -> before a c = false.





End SortBy.

(** ** Ranking: decreasing and increasing order on known values *)






(** ** Ranking: the rows and their positions *)









Section Ranking.

Variable before : float -> float -> bool.

Hypothesis before_trans : forall a b c,
  before a b = true -> before b c = true -> before a c = true.

Hypothesis before_negtrans : forall a b c,
  notnan a = true -> notnan b = true -> notnan c = true ->
  before a b = false -> before b c = false -> before a c = false.



End Ranking.

(** ** Ranking: what the first [n] positions are *)



Section RankingPositions.

Variable before : float -> float -> bool.

Hypothesis before_trans : forall a b c,
  before a b = true -> before b c = true -> before a c = true.

Hypothesis before_negtrans : forall a b c,
  notnan a = true -> notnan b = true -> notnan c = true ->
  before a b = false -> before b c = false -> before a c = false.









End RankingPositions.

(** ** Properties of Top-N and Bottom-N (lines 314 and 333) *)








(** ** Binary64: zero denominators and sums of zeros *)

Lemma eqb_zero_shape p :
  (p =? 0)%float = true <-> exists s, Prim2SF p = S754_zero s.
Proof.
  rewrite FloatAxioms.eqb_spec. change (Prim2SF 0) with (S754_zero false).
  unfold SFeqb. destruct (Prim2SF p) as [s|s| |s m e]; simpl.
  - split; eauto.
  - split; [destruct s; discriminate|intros [? ?]; discriminate].
  - split; [discriminate|intros [? ?]; discriminate].
  - split; [destruct s; discriminate|intros [? ?]; discriminate].
Qed.

Lemma div_by_zero_not_finite y p :
  (p =? 0)%float = true -> finite (y / p) = false.
Proof.
  intros [s Hs]%eqb_zero_shape. unfold finite.
  rewrite FloatAxioms.div_spec, Hs. now destruct (Prim2SF y).
Qed.

Lemma mul_not_finite x k : finite x = false -> finite (x * k) = false.
Proof.
  unfold finite. rewrite FloatAxioms.mul_spec.
  destruct (Prim2SF x) as [s|s| |s m e]; try discriminate; intros _;
    now destruct (Prim2SF k).
Qed.

Lemma add_zeros a x :
  (a =? 0)%float = true -> (x =? 0)%float = true -> (a + x =? 0)%float = true.
Proof.
  intros [sa Ha]%eqb_zero_shape [sx Hx]%eqb_zero_shape.
  apply eqb_zero_shape. rewrite FloatAxioms.add_spec, Ha, Hx.
  destruct sa, sx; simpl; eauto.
Qed.

Lemma fold_add_zeros xs a :
  Forall (fun x => (x =? 0)%float = true) xs -> (a =? 0)%float = true ->
  (fold_left add xs a =? 0)%float = true.
Proof.
  intros H. revert a. induction H as [|x xs Hx _ IH]; intros a Ha; simpl.
  - exact Ha.
  - apply IH, add_zeros; assumption.
Qed.

Lemma fsum_dropna_zeros xs :
  Forall (fun x => (x =? 0)%float = true) xs ->
  (fsum (dropna xs) =? 0)%float = true.
Proof.
  intros H. unfold fsum. apply fold_add_zeros; [|reflexivity].
  apply List.Forall_forall. intros x Hx. apply filter_In in Hx as [Hx _].
  rewrite List.Forall_forall in H. now apply H.
Qed.

Lemma to_int_zero x : (x =? 0)%float = true -> F64.to_int x = inr 0%Z.
Proof.
  intros [s Hs]%eqb_zero_shape. unfold F64.to_int. now rewrite Hs.
Qed.

(** ** Aggregates over a view *)

Lemma col_sum_num df c xs :
  df !! c = Some (NumCol xs) -> col_sum df c = inr (fsum (dropna xs)).
Proof. intros H. unfold col_sum, getcol. now rewrite H. Qed.

Lemma funnel_df_inv view f :
  funnel_df view = inr f ->
  exists reach eng orders rev pay,
    view !! "reach" = Some (NumCol reach) /\
    view !! "engagement" = Some (NumCol eng) /\
    view !! "orders" = Some (NumCol orders) /\
    view !! "revenue" = Some (NumCol rev) /\
    view !! "total_payout" = Some (NumCol pay) /\
    f = mkFunnel (fsum (dropna reach)) (fsum (dropna eng)) (fsum (dropna orders))
                 (fsum (dropna rev)) (fsum (dropna pay)).
Proof.
  unfold funnel_df. intros H.
  apply bind_inr in H as (sub & Hsub & H).
  assert (forall c xs, col_sum sub c = inr xs ->
            In c ["reach"; "engagement"; "orders"; "revenue"; "total_payout"]%string ->
            exists l, view !! c = Some (NumCol l) /\ xs = fsum (dropna l)) as P.
  { intros c x Hc Hin. unfold col_sum in Hc.
    apply bind_inr in Hc as (s & Hs%getcol_inr & Hc).
    rewrite (project_lookup _ _ _ c Hsub) in Hs.
    assert (in_list c ["reach"; "engagement"; "orders"; "revenue";
                       "total_payout"]%string = true) as E.
    { simpl in Hin. destruct Hin as [<-|[<-|[<-|[<-|[<-|[]]]]]]; reflexivity. }
    rewrite E in Hs. destruct s as [l|l|l]; try discriminate Hc.
    exists l. split; [exact Hs|]. now injection Hc as <-. }
  apply bind_inr in H as (r & Hr & H).
  apply bind_inr in H as (e & He & H).
  apply bind_inr in H as (o & Ho & H).
  apply bind_inr in H as (rv & Hv & H).
  apply bind_inr in H as (p & Hp & H).
  injection H as <-.
  apply P in Hr as (reach & ? & ->); [|simpl; tauto].
  apply P in He as (eng & ? & ->); [|simpl; tauto].
  apply P in Ho as (orders & ? & ->); [|simpl; tauto].
  apply P in Hv as (rev & ? & ->); [|simpl; tauto].
  apply P in Hp as (pay & ? & ->); [|simpl; tauto].
  exists reach, eng, orders, rev, pay. repeat split; assumption.
Qed.

Lemma funnel_vals_inv f v :
  funnel_vals f = inr v ->
  F64.to_int (f_reach f) = inr (v0 v) /\
  F64.to_int (f_engagement f) = inr (v1 v) /\
  F64.to_int (f_orders f) = inr (v2 v) /\
  F64.to_int (f_revenue f) = inr (v3 v) /\
  F64.to_int (f_total_payout f) = inr (v4 v).
Proof.
  unfold funnel_vals. intros H.
  apply bind_inr in H as (a & Ha & H).
  apply bind_inr in H as (b & Hb & H).
  apply bind_inr in H as (c & Hc & H).
  apply bind_inr in H as (d & Hd & H).
  apply bind_inr in H as (e & He & H).
  injection H as <-. simpl. auto.
Qed.

(** ** Properties of the aggregate KPIs (lines 171, 188, 280-286, 496) *)

(** When every payout of the view is zero, "Overall ROI" (dashboard and
    report) is computed without an error and is an infinity or NaN, not a
    number. *)
Theorem overall_roi_zero_spend (view : DataFrame) (pays : list float) (rv : float) :
  view !! "total_payout" = Some (NumCol pays) -> all_zero pays ->
  col_sum view "revenue" = inr rv ->
  exists x, roi_all view = inr x /\ report_overall_roi view = inr x
            /\ finite x = false.
Proof.
  intros Hp Z Hv. exists ((rv - fsum (dropna pays)) / fsum (dropna pays) * 100)%float.
  unfold roi_all, report_overall_roi.
  rewrite Hv, (col_sum_num _ _ _ Hp). cbn [bind].
  split; [reflexivity|]. split; [reflexivity|].
  apply mul_not_finite, div_by_zero_not_finite, fsum_dropna_zeros, Z.
Qed.

Lemma zero_view_payout :
  zero_view !! "total_payout"%string = Some (NumCol [0%float]).
Proof. vm_cast_no_check (eq_refl (Some (NumCol [0%float]))). Qed.

Lemma zero_view_revenue : col_sum zero_view "revenue" = inr 100%float.
Proof. vm_cast_no_check (eq_refl (@inr exn float 100%float)). Qed.

Lemma all_zero_singleton : all_zero [0%float].
Proof. repeat constructor. Qed.

Lemma overall_roi_zero_spend_witness :
  exists x, roi_all zero_view = inr x /\ report_overall_roi zero_view = inr x
            /\ finite x = false.
Proof.
  exact (overall_roi_zero_spend zero_view [0%float] 100%float zero_view_payout
           all_zero_singleton zero_view_revenue).
Defined.

(** On that view the overall ROI is +infinity while the record's own ROI is
    NaN. *)
Example overall_roi_is_infinite :
  roi_all zero_view = inr infinity
  /\ zero_view !! "roi_percentage"%string = Some (NumCol [nan]).
Proof.
  split.
  - vm_cast_no_check (eq_refl (@inr exn float infinity)).
  - vm_cast_no_check (eq_refl (Some (NumCol [nan]))).
Qed.

(** When every order count of the view is zero, "Cost / Order" is computed
    without an error and is an infinity or NaN. *)
Theorem cost_per_order_zero_orders (view : DataFrame) (orders : list float)
    (p : float) :
  view !! "orders" = Some (NumCol orders) -> all_zero orders ->
  col_sum view "total_payout" = inr p ->
  exists x, cost_per_order view = inr x /\ finite x = false.
Proof.
  intros Ho Z Hp. exists (p / fsum (dropna orders))%float.
  unfold cost_per_order. rewrite Hp, (col_sum_num _ _ _ Ho). cbn [bind].
  split; [reflexivity|].
  apply div_by_zero_not_finite, fsum_dropna_zeros, Z.
Qed.

Lemma zero_view_orders : zero_view !! "orders"%string = Some (NumCol [0%float]).
Proof. vm_cast_no_check (eq_refl (Some (NumCol [0%float]))). Qed.

Lemma zero_view_payout_sum : col_sum zero_view "total_payout" = inr 0%float.
Proof. vm_cast_no_check (eq_refl (@inr exn float 0%float)). Qed.

Lemma cost_per_order_zero_orders_witness :
  exists x, cost_per_order zero_view = inr x /\ finite x = false.
Proof.
  exact (cost_per_order_zero_orders zero_view [0%float] 0%float zero_view_orders
           all_zero_singleton zero_view_payout_sum).
Defined.

(** The funnel ratios divide Python ints: when every reach (engagement,
    orders) of the view is zero, the ratios over it raise ZeroDivisionError. *)
Theorem funnel_zero_denominators (view : DataFrame) (f : funnel_sums)
    (v : funnel_ints) :
  funnel_df view = inr f -> funnel_vals f = inr v ->
  (forall reach, view !! "reach" = Some (NumCol reach) -> all_zero reach ->
     conversion_efficiency v = inl ZeroDivisionError
     /\ reach_to_engagement v = inl ZeroDivisionError)
  /\ (forall eng, view !! "engagement" = Some (NumCol eng) -> all_zero eng ->
        engagement_to_order v = inl ZeroDivisionError)
  /\ (forall orders, view !! "orders" = Some (NumCol orders) -> all_zero orders ->
        order_to_revenue v = inl ZeroDivisionError).
Proof.
  intros Hf Hv.
  apply funnel_df_inv in Hf
    as (reach & eng & orders & rev & pay & Hr & He & Ho & _ & _ & ->).
  apply funnel_vals_inv in Hv as (V0 & V1 & V2 & _ & _). simpl in V0, V1, V2.
  split; [|split].
  - intros reach' Hr' Z. rewrite Hr in Hr'. injection Hr' as <-.
    rewrite (to_int_zero _ (fsum_dropna_zeros _ Z)) in V0. injection V0 as E.
    unfold conversion_efficiency, reach_to_engagement, py_truediv.
    rewrite <- E. split; reflexivity.
  - intros eng' He' Z. rewrite He in He'. injection He' as <-.
    rewrite (to_int_zero _ (fsum_dropna_zeros _ Z)) in V1. injection V1 as E.
    unfold engagement_to_order, py_truediv. rewrite <- E. reflexivity.
  - intros orders' Ho' Z. rewrite Ho in Ho'. injection Ho' as <-.
    rewrite (to_int_zero _ (fsum_dropna_zeros _ Z)) in V2. injection V2 as E.
    unfold order_to_revenue, py_truediv. rewrite <- E. reflexivity.
Qed.

Lemma zero_view_funnel : funnel_df zero_view = inr (mkFunnel 0 0 0 100 0).
Proof. vm_cast_no_check (eq_refl (@inr exn funnel_sums (mkFunnel 0 0 0 100 0))). Qed.

Lemma zero_view_funnel_vals :
  funnel_vals (mkFunnel 0 0 0 100 0) = inr (mkVals 0 0 0 100 0).
Proof. vm_cast_no_check (eq_refl (@inr exn funnel_ints (mkVals 0 0 0 100 0))). Qed.

Lemma zero_view_reach : zero_view !! "reach"%string = Some (NumCol [0%float]).
Proof. vm_cast_no_check (eq_refl (Some (NumCol [0%float]))). Qed.

Lemma funnel_zero_denominators_witness :
  conversion_efficiency (mkVals 0 0 0 100 0) = inl ZeroDivisionError
  /\ reach_to_engagement (mkVals 0 0 0 100 0) = inl ZeroDivisionError.
Proof.
  destruct (funnel_zero_denominators zero_view _ _ zero_view_funnel
              zero_view_funnel_vals) as (H & _ & _).
  exact (H [0%float] zero_view_reach all_zero_singleton).
Defined.

(** ** Properties of normalisation (lines 63-76) *)

Lemma cell_engagement d' likes comments reach rev pay orders df i l c :
  likes !! i = Some l -> comments !! i = Some c ->
  cell_num (engineered d' likes comments reach rev pay orders df) "engagement" i
  = Some (l + c)%float.
Proof.
  intros Hl Hc. unfold cell_num, engineered. simpl.
  rewrite !lookup_insert_ne by done. rewrite lookup_insert_eq.
  now rewrite lookup_zip_with, Hl, Hc.
Qed.

Lemma zero_to_nan_nonzero x : (x =? 0)%float = false -> zero_to_nan x = x.
Proof. intros H. unfold zero_to_nan. now rewrite H. Qed.

(** Normalisation is row-wise: the derived cells of record [i] are functions
    of the base cells of record [i] alone.  Engagement is likes + comments;
    each ratio divides by its denominator with zero replaced by NaN; the
    category is the ladder applied to the record's ROI. *)
Theorem derived_cells_row_wise (to_datetime : column -> result column)
    (df df' : DataFrame) (i : nat) (l c rc r p o : float) :
  clean_and_engineer to_datetime df = inr df' ->
  cell_num df "likes" i = Some l -> cell_num df "comments" i = Some c ->
  cell_num df "reach" i = Some rc -> cell_num df "revenue" i = Some r ->
  cell_num df "total_payout" i = Some p -> cell_num df "orders" i = Some o ->
  cell_num df' "engagement" i = Some (l + c)%float
  /\ cell_num df' "engagement_rate" i = Some ((l + c) / zero_to_nan rc * 100)%float
  /\ cell_num df' "roas" i = Some (r / zero_to_nan p)%float
  /\ cell_num df' "roi_percentage" i = Some ((r - p) / zero_to_nan p * 100)%float
  /\ cell_num df' "average_order_value" i = Some (r / zero_to_nan o)%float
  /\ cell_str df' "performance_category" i
     = Some (performance_category ((r - p) / zero_to_nan p * 100)%float).
Proof.
  intros Hn Hl Hc Hr Hv Hp Ho.
  apply clean_and_engineer_inv in Hn
    as (d & d' & likes & comments & reach & rev & pay & orders &
        _ & _ & El & Ec & Er & Ev & Ep & Eo & ->).
  rewrite (cell_num_lookup _ _ _ _ El) in Hl.
  rewrite (cell_num_lookup _ _ _ _ Ec) in Hc.
  rewrite (cell_num_lookup _ _ _ _ Er) in Hr.
  rewrite (cell_num_lookup _ _ _ _ Ev) in Hv.
  rewrite (cell_num_lookup _ _ _ _ Ep) in Hp.
  rewrite (cell_num_lookup _ _ _ _ Eo) in Ho.
  split; [now apply cell_engagement|].
  split; [now apply cell_engagement_rate|].
  split; [now apply cell_roas|].
  split; [now apply cell_roi|].
  split; [now apply cell_aov|].
  now apply cell_performance_category.
Qed.

(** Record 0 of the example: 350 likes and 40 comments on a reach of 10000,
    27 orders, revenue 3000 on a payout of 1000. *)
Lemma derived_cells_row_wise_witness :
  cell_num example_dataset "engagement" 0 = Some 390%float
  /\ cell_num example_dataset "roas" 0 = Some 3%float
  /\ cell_num example_dataset "roi_percentage" 0 = Some 200%float.
Proof.
  destruct (derived_cells_row_wise keep_dates example_upload example_dataset 0
              350 40 10000 3000 1000 27 example_normalises
              eq_refl eq_refl eq_refl eq_refl eq_refl eq_refl)
    as (H1 & _ & H3 & H4 & _).
  split; [exact H1|]. split; [exact H3|exact H4].
Defined.

(** Normalisation writes seven columns (the date it converts and the six it
    derives) and leaves every other column of the upload as it was. *)
Theorem normalisation_keeps_base_columns (to_datetime : column -> result column)
    (df df' : DataFrame) (c : string) :
  clean_and_engineer to_datetime df = inr df' ->
  ~ In c ["date"; "engagement"; "engagement_rate"; "roas"; "roi_percentage";
          "average_order_value"; "performance_category"]%string ->
  df' !! c = df !! c.
Proof.
  intros Hn Hc.
  apply clean_and_engineer_inv in Hn
    as (d & d' & likes & comments & reach & rev & pay & orders &
        _ & _ & _ & _ & _ & _ & _ & _ & ->).
  unfold engineered. simpl in Hc.
  rewrite !lookup_insert_ne; [reflexivity|..]; intros <-; tauto.
Qed.

Lemma normalisation_keeps_base_columns_witness :
  example_dataset !! "revenue"%string = example_upload !! "revenue"%string.
Proof.
  apply (normalisation_keeps_base_columns keep_dates example_upload
           example_dataset "revenue" example_normalises).
  simpl. intros [H|[H|[H|[H|[H|[H|[H|[]]]]]]]]; discriminate H.
Defined.

Lemma engineered_again d' likes comments reach rev pay orders df :
  engineered d' likes comments reach rev pay orders
    (engineered d' likes comments reach rev pay orders df)
  = engineered d' likes comments reach rev pay orders df.
Proof.
  set (df' := engineered d' likes comments reach rev pay orders df).
  unfold engineered at 1. cbv zeta.
  repeat (rewrite insert_id;
          [|rewrite ?lookup_insert_ne by done; subst df'; unfold engineered;
            cbv zeta; rewrite ?lookup_insert_ne by done;
            now rewrite lookup_insert_eq]).
  reflexivity.
Qed.

(** Normalising a normalised dataset changes nothing, when converting dates
    that are already converted changes nothing. *)
Theorem normalisation_idempotent (to_datetime : column -> result column)
    (df df' : DataFrame) :
  (forall d d', to_datetime d = inr d' -> to_datetime d' = inr d') ->
  clean_and_engineer to_datetime df = inr df' ->
  clean_and_engineer to_datetime df' = inr df'.
Proof.
  intros Hid Hn.
  apply clean_and_engineer_inv in Hn
    as (d & d' & likes & comments & reach & rev & pay & orders &
        Ed & Ed' & El & Ec & Er & Ev & Ep & Eo & ->).
  rewrite (clean_and_engineer_ok to_datetime _ d' d' likes comments reach rev pay
             orders).
  - now rewrite engineered_again.
  - unfold engineered. cbv zeta. rewrite !lookup_insert_ne by done.
    apply lookup_insert_eq.
  - eapply Hid, Ed'.
  - unfold engineered. cbv zeta. now rewrite !lookup_insert_ne by done.
  - unfold engineered. cbv zeta. now rewrite !lookup_insert_ne by done.
  - unfold engineered. cbv zeta. now rewrite !lookup_insert_ne by done.
  - unfold engineered. cbv zeta. now rewrite !lookup_insert_ne by done.
  - unfold engineered. cbv zeta. now rewrite !lookup_insert_ne by done.
  - unfold engineered. cbv zeta. now rewrite !lookup_insert_ne by done.
Qed.

Lemma keep_dates_again d d' : keep_dates d = inr d' -> keep_dates d' = inr d'.
Proof. destruct d; simpl; try discriminate. now intros [= <-]. Qed.

Lemma normalisation_idempotent_witness :
  clean_and_engineer keep_dates example_dataset = inr example_dataset.
Proof.
  exact (normalisation_idempotent keep_dates example_upload example_dataset
           keep_dates_again example_normalises).
Defined.

(** ** Filtering: the mask, row by row *)

Lemma mask_and_true a b i :
  mask_and a b !! i = Some true <-> a !! i = Some true /\ b !! i = Some true.
Proof.
  unfold mask_and. rewrite lookup_zip_with.
  destruct (a !! i) as [[]|], (b !! i) as [[]|]; simpl; split;
    intuition congruence.
Qed.

Lemma isin_true sel df c col i :
  df !! c = Some col ->
  isin sel col !! i = Some true
  <-> exists x, cell_str df c i = Some x /\ in_list x sel = true.
Proof.
  intros H. unfold cell_str. rewrite H.
  destruct col as [xs|xs|xs]; simpl; rewrite lookup_map.
  - destruct (xs !! i); simpl; split; [discriminate|intros (? & [=] & _)|
                                       discriminate|intros (? & [=] & _)].
  - destruct (xs !! i) as [x|]; simpl; split.
    + intros [= E]. eauto.
    + intros (y & [= <-] & E). now rewrite E.
    + discriminate.
    + intros (? & [=] & _).
  - destruct (xs !! i); simpl; split; [discriminate|intros (? & [=] & _)|
                                       discriminate|intros (? & [=] & _)].
Qed.

Lemma series_eq_true s df c col i :
  df !! c = Some col ->
  series_eq s col !! i = Some true <-> cell_str df c i = Some s.
Proof.
  intros H. unfold cell_str. rewrite H.
  destruct col as [xs|xs|xs]; simpl; rewrite lookup_map.
  - destruct (xs !! i); simpl; split; discriminate.
  - destruct (xs !! i) as [x|]; simpl; [|split; discriminate].
    destruct (String.eqb_spec x s) as [->|Hne]; split; try reflexivity;
      intros [= E]; congruence.
  - destruct (xs !! i); simpl; split; discriminate.
Qed.

Lemma dt_date_between_true lo hi df col m i :
  df !! "date" = Some col -> dt_date_between lo hi col = inr m ->
  m !! i = Some true
  <-> exists d, cell_date df "date" i = Some (Some d)
                /\ date_leb lo d = true /\ date_leb d hi = true.
Proof.
  intros H Hm. unfold cell_date. rewrite H.
  destruct col as [xs|xs|xs]; try discriminate Hm.
  injection Hm as <-. rewrite lookup_map.
  destruct (xs !! i) as [[d|]|]; simpl; split.
  - intros [= E]. apply andb_true_iff in E. eauto.
  - intros (d' & [= <-] & E1 & E2). now rewrite E1, E2.
  - discriminate.
  - intros (? & [=] & _).
  - discriminate.
  - intros (? & [=] & _).
Qed.

Lemma flt_row_spec S df m i :
  flt S df = inr m -> m !! i = Some true <-> row_passes S df i.
Proof.
  unfold flt, row_passes. intros H.
  apply bind_inr in H as (d & Hd%getcol_inr & H).
  apply bind_inr in H as (m1 & Hm1 & H).
  apply bind_inr in H as (c & Hc%getcol_inr & H).
  apply bind_inr in H as (p & Hp%getcol_inr & H).
  apply bind_inr in H as (g & Hg%getcol_inr & H).
  apply bind_inr in H as (s & Hs%getcol_inr & H).
  rewrite <- (dt_date_between_true _ _ df d m1 i Hd Hm1).
  rewrite <- (isin_true (campaigns S) df _ c i Hc).
  rewrite <- (isin_true (platforms S) df _ p i Hp).
  rewrite <- (isin_true (categories S) df _ g i Hg).
  rewrite <- (isin_true (genders S) df _ s i Hs).
  destruct (String.eqb_spec (perf_band S) "All") as [E|E].
  - injection H as <-. rewrite !mask_and_true. tauto.
  - apply bind_inr in H as (pc & Hpc%getcol_inr & [= <-]).
    rewrite <- (series_eq_true _ df _ pc i Hpc).
    rewrite !mask_and_true. tauto.
Qed.

Lemma no_true_all_false (m : list bool) :
  (forall i, m !! i <> Some true) -> Forall (fun b => b = false) m.
Proof.
  induction m as [|b m IH]; intros H; constructor.
  - specialize (H 0%nat). simpl in H. destruct b; congruence.
  - apply IH. intros i. exact (H (S i)).
Qed.

Lemma date_leb_trans a b c :
  date_leb a b = true -> date_leb b c = true -> date_leb a c = true.
Proof.
  unfold date_leb. destruct a as [ya ma da], b as [yb mb db], c as [yc mc dc].
  simpl. rewrite !orb_true_iff, !andb_true_iff, !orb_true_iff, !andb_true_iff,
           !Z.ltb_lt, !Z.eqb_eq, !Z.leb_le. lia.
Qed.

(** ** Filtering: two filters in a row *)

Lemma select_select_and {A : Type} (a b : list bool) (xs : list A) :
  select (select a b) (select a xs) = select (mask_and a b) xs.
Proof.
  unfold mask_and. revert b xs.
  induction a as [|x a IH]; intros [|y b] [|z xs]; simpl; try reflexivity;
    destruct x; try destruct y; simpl; rewrite ?select_nil_r, ?IH;
    try reflexivity; now destruct (select a xs).
Qed.

Lemma mask_and_comm a b : mask_and a b = mask_and b a.
Proof.
  unfold mask_and. revert b. induction a as [|x a IH]; intros [|y b]; simpl;
    try reflexivity. now rewrite IH, andb_comm.
Qed.

Lemma getitem_mask_getitem_mask df a b :
  getitem_mask (getitem_mask df a) (select a b) = getitem_mask df (mask_and a b).
Proof.
  unfold getitem_mask. rewrite <- map_fmap_compose.
  apply map_fmap_ext. intros k c _. simpl.
  destruct c; simpl; now rewrite select_select_and.
Qed.

Lemma getcol_of_view df m0 c s' :
  getcol (getitem_mask df m0) c = inr s' ->
  exists s, getcol df c = inr s /\ s' = col_select m0 s.
Proof.
  rewrite getcol_inr. unfold getitem_mask. rewrite lookup_fmap.
  destruct (df !! c) as [s|] eqn:E; simpl; [|discriminate].
  intros [= <-]. exists s. split; [now apply getcol_inr|reflexivity].
Qed.

Lemma dt_date_between_of_view lo hi m0 s b :
  dt_date_between lo hi (col_select m0 s) = inr b ->
  exists b0, dt_date_between lo hi s = inr b0.
Proof. destruct s; simpl; try discriminate. eauto. Qed.

(** A filter that can be applied to a view can be applied to the frame. *)
Lemma flt_of_view S df m0 m' :
  flt S (getitem_mask df m0) = inr m' -> exists m, flt S df = inr m.
Proof.
  unfold flt. intros H.
  apply bind_inr in H as (d' & (d & Hd & ->)%getcol_of_view & H).
  apply bind_inr in H as (m1' & (m1 & Hm1)%dt_date_between_of_view & H).
  apply bind_inr in H as (c' & (c & Hc & ->)%getcol_of_view & H).
  apply bind_inr in H as (p' & (p & Hp & ->)%getcol_of_view & H).
  apply bind_inr in H as (g' & (g & Hg & ->)%getcol_of_view & H).
  apply bind_inr in H as (s' & (s & Hs & ->)%getcol_of_view & H).
  rewrite Hd. cbn [bind]. rewrite Hm1. cbn [bind].
  rewrite Hc, Hp, Hg, Hs. cbn [bind].
  destruct (String.eqb (perf_band S) "All"); [eauto|].
  apply bind_inr in H as (pc' & (pc & Hpc & ->)%getcol_of_view & H).
  rewrite Hpc. cbn [bind]. eauto.
Qed.

(** ** Properties of the filter (lines 133-144) *)

(** The view holds, in every column, the rows of the dataset that pass the
    filter and no other: a row is kept exactly when its date is known and in
    the range (ends included), its campaign, platform, category and gender
    are selected, and its category is the chosen band unless that is "All". *)
Theorem filter_keeps_exactly_matching_rows (S : FilterSpec) (df view : DataFrame) :
  data S df = inr view ->
  exists m, (forall c, view !! c = col_select m <$> df !! c)
            /\ forall i, m !! i = Some true <-> row_passes S df i.
Proof.
  intros H. unfold data in H. apply bind_inr in H as (m & Hm & [= <-]).
  exists m. split.
  - intros c. apply lookup_fmap.
  - intros i. now apply flt_row_spec.
Qed.

Lemma data_instagram_high :
  data select_instagram_high example_dataset
  = inr (getitem_mask example_dataset [true; false; false]).
Proof.
  vm_cast_no_check
    (eq_refl (@inr exn DataFrame (getitem_mask example_dataset [true; false; false]))).
Qed.

Lemma filter_keeps_exactly_matching_rows_witness :
  exists m,
    (forall c, getitem_mask example_dataset [true; false; false] !! c
               = col_select m <$> example_dataset !! c)
    /\ forall i, m !! i = Some true
                 <-> row_passes select_instagram_high example_dataset i.
Proof.
  exact (filter_keeps_exactly_matching_rows select_instagram_high example_dataset
           _ data_instagram_high).
Defined.

(** Two filters applied one after the other give the rows that pass both,
    in either order. *)
Theorem filters_commute (S1 S2 : FilterSpec) (df v1 v12 : DataFrame) :
  data S1 df = inr v1 -> data S2 v1 = inr v12 ->
  exists m1 m2 v2,
    flt S1 df = inr m1 /\ flt S2 df = inr m2
    /\ v12 = getitem_mask df (mask_and m1 m2)
    /\ data S2 df = inr v2 /\ data S1 v2 = inr v12.
Proof.
  intros H1 H2. unfold data in H1. apply bind_inr in H1 as (m1 & Hm1 & [= <-]).
  unfold data in H2. apply bind_inr in H2 as (m2' & Hm2' & [= <-]).
  destruct (flt_of_view S2 df m1 m2' Hm2') as [m2 Hm2].
  rewrite (flt_getitem_mask S2 df m1 m2 Hm2) in Hm2'. injection Hm2' as <-.
  exists m1, m2, (getitem_mask df m2).
  split; [exact Hm1|]. split; [exact Hm2|].
  split; [apply getitem_mask_getitem_mask|].
  split; [unfold data; now rewrite Hm2|].
  unfold data. rewrite (flt_getitem_mask S1 df m2 m1 Hm1). cbn [bind]. unfold ok.
  now rewrite !getitem_mask_getitem_mask, (mask_and_comm m1 m2).
Qed.

Lemma data_all_of_view :
  data select_all (getitem_mask example_dataset [true; false; false])
  = inr (getitem_mask example_dataset [true; false; false]).
Proof.
  vm_cast_no_check
    (eq_refl (@inr exn DataFrame (getitem_mask example_dataset [true; false; false]))).
Qed.

Lemma filters_commute_witness :
  exists m1 m2 v2,
    flt select_instagram_high example_dataset = inr m1
    /\ flt select_all example_dataset = inr m2
    /\ getitem_mask example_dataset [true; false; false]
       = getitem_mask example_dataset (mask_and m1 m2)
    /\ data select_all example_dataset = inr v2
    /\ data select_instagram_high v2
       = inr (getitem_mask example_dataset [true; false; false]).
Proof.
  exact (filters_commute select_instagram_high select_all example_dataset _ _
           data_instagram_high data_all_of_view).
Defined.

(** A date range whose start lies after its end keeps no row. *)
Theorem backwards_date_range_empty (S : FilterSpec) (df view : DataFrame) :
  date_leb (date_min S) (date_max S) = false ->
  data S df = inr view ->
  df_empty view.
Proof.
  intros Hb H. unfold data in H. apply bind_inr in H as (m & Hm & [= <-]).
  apply getitem_mask_all_false, no_true_all_false. intros i Hi.
  apply (flt_row_spec S df m i Hm) in Hi as ((d & _ & L1 & L2) & _).
  rewrite (date_leb_trans _ _ _ L1 L2) in Hb. discriminate Hb.
Qed.

Lemma data_backwards :
  data select_backwards example_dataset
  = inr (getitem_mask example_dataset [false; false; false]).
Proof.
  vm_cast_no_check
    (eq_refl (@inr exn DataFrame (getitem_mask example_dataset [false; false; false]))).
Qed.

Lemma backwards_date_range_empty_witness :
  df_empty (getitem_mask example_dataset [false; false; false]).
Proof.
  exact (backwards_date_range_empty select_backwards example_dataset _ eq_refl
           data_backwards).
Defined.

(** ** Rows stay aligned *)

Lemma select_length_le {A : Type} (m : list bool) (xs : list A) :
  (length (select m xs) <= length xs)%nat.
Proof.
  revert xs. induction m as [|b m IH]; intros [|x xs]; simpl; try lia.
  destruct b; simpl; specialize (IH xs); lia.
Qed.

Lemma select_length_eq {A B : Type} (m : list bool) (xs : list A) (ys : list B) :
  length xs = length ys -> length (select m xs) = length (select m ys).
Proof.
  revert xs ys. induction m as [|b m IH]; intros [|x xs] [|y ys]; simpl;
    try reflexivity; try discriminate.
  intros [= E]. destruct b; simpl; now rewrite (IH xs ys E).
Qed.

Lemma col_select_length m c :
  col_length (col_select m c) = length (select m (replicate (col_length c) tt)).
Proof.
  destruct c as [xs|xs|xs]; simpl; apply select_length_eq;
    now rewrite length_replicate.
Qed.

(** A view has as many cells in every column: the rows of a well-formed
    dataset stay aligned, and there are no more of them than before. *)
Theorem filter_keeps_rows_aligned (S : FilterSpec) (df view : DataFrame) (n : nat) :
  map_Forall (fun _ c => col_length c = n) df ->
  data S df = inr view ->
  exists k, (k <= n)%nat /\ map_Forall (fun _ c => col_length c = k) view.
Proof.
  intros W H. unfold data in H. apply bind_inr in H as (m & _ & [= <-]).
  exists (length (select m (replicate n tt))). split.
  - etransitivity; [apply select_length_le|]. now rewrite length_replicate.
  - unfold getitem_mask. apply map_Forall_fmap. intros c s Hs. simpl.
    rewrite col_select_length. now rewrite (W c s Hs).
Qed.

Lemma example_dataset_aligned :
  map_Forall (fun _ c => col_length c = 3%nat) example_dataset.
Proof.
  apply (bool_decide_eq_true_1
           (map_Forall (fun _ c => col_length c = 3%nat) example_dataset)).
  vm_cast_no_check (eq_refl true).
Qed.

Lemma filter_keeps_rows_aligned_witness :
  exists k, (k <= 3)%nat
            /\ map_Forall (fun _ c => col_length c = k)
                 (getitem_mask example_dataset [true; false; false]).
Proof.
  exact (filter_keeps_rows_aligned select_instagram_high example_dataset _ 3
           example_dataset_aligned data_instagram_high).
Defined.

(** Normalisation keeps the number of rows: on an upload of [n] rows every
    column of the result, the derived ones included, has [n] rows, when the
    date conversion keeps the length of the column. *)
Theorem normalisation_keeps_row_count (to_datetime : column -> result column)
    (df df' : DataFrame) (n : nat) :
  (forall d d', to_datetime d = inr d' -> col_length d' = col_length d) ->
  map_Forall (fun _ c => col_length c = n) df ->
  clean_and_engineer to_datetime df = inr df' ->
  map_Forall (fun _ c => col_length c = n) df'.
Proof.
  intros Hlen W Hn.
  apply clean_and_engineer_inv in Hn
    as (d & d' & likes & comments & reach & rev & pay & orders &
        Ed & Ed' & El & Ec & Er & Ev & Ep & Eo & ->).
  pose proof (W _ _ Ed) as Ld. pose proof (W _ _ El) as Ll.
  pose proof (W _ _ Ec) as Lc. pose proof (W _ _ Er) as Lr.
  pose proof (W _ _ Ev) as Lv. pose proof (W _ _ Ep) as Lp.
  pose proof (W _ _ Eo) as Lo. simpl in Ll, Lc, Lr, Lv, Lp, Lo.
  unfold engineered. cbv zeta.
  repeat apply map_Forall_insert_2; try exact W; simpl;
    rewrite ?length_map, ?length_zip_with, ?length_map, ?length_zip_with,
            ?length_map; try lia.
  rewrite (Hlen _ _ Ed'). exact Ld.
Qed.

Lemma keep_dates_length d d' : keep_dates d = inr d' -> col_length d' = col_length d.
Proof. destruct d; simpl; try discriminate. now intros [= <-]. Qed.

Lemma example_upload_aligned :
  map_Forall (fun _ c => col_length c = 3%nat) example_upload.
Proof.
  unfold example_upload.
  repeat apply map_Forall_insert_2; try reflexivity. apply map_Forall_empty.
Qed.

Lemma normalisation_keeps_row_count_witness :
  map_Forall (fun _ c => col_length c = 3%nat) example_dataset.
Proof.
  exact (normalisation_keeps_row_count keep_dates example_upload example_dataset 3
           keep_dates_length example_upload_aligned example_normalises).
Defined.

(** ** Month buckets (lines 211, 429, 507) *)

Lemma digit_inj a b : digit a = digit b -> (a mod 10 = b mod 10)%Z.
Proof.
  unfold digit. intros H.
  assert (0 <= a mod 10 < 10)%Z as Ha by (apply Z.mod_pos_bound; lia).
  assert (0 <= b mod 10 < 10)%Z as Hb by (apply Z.mod_pos_bound; lia).
  apply (f_equal nat_of_ascii) in H.
  rewrite !nat_ascii_embedding in H by lia. lia.
Qed.

Lemma fmt2_inj a b :
  (0 <= a < 100)%Z -> (0 <= b < 100)%Z -> fmt2 a = fmt2 b -> a = b.
Proof.
  unfold fmt2. intros Ha Hb [= H1%digit_inj H2%digit_inj].
  Z.div_mod_to_equations. lia.
Qed.

Lemma fmt4_inj a b :
  (0 <= a < 10000)%Z -> (0 <= b < 10000)%Z -> fmt4 a = fmt4 b -> a = b.
Proof.
  unfold fmt4, fmt2.
  intros Ha Hb [= H1%digit_inj H2%digit_inj H3%digit_inj H4%digit_inj].
  Z.div_mod_to_equations. lia.
Qed.

(** Two dated records fall into the same month bucket exactly when they have
    the same year and month; a dated record never falls into the bucket of the
    undated ones. *)
Theorem month_bucket_is_year_month (d1 d2 : date) :
  (0 <= year d1 < 10000)%Z -> (1 <= month d1 <= 12)%Z ->
  (0 <= year d2 < 10000)%Z -> (1 <= month d2 <= 12)%Z ->
  (period_M_str (Some d1) = period_M_str (Some d2)
   <-> year d1 = year d2 /\ month d1 = month d2)
  /\ period_M_str (Some d1) <> period_M_str None.
Proof.
  intros Y1 M1 Y2 M2. split; [split|].
  - unfold period_M_str, fmt4, fmt2. simpl.
    intros [= H1 H2 H3 H4 H5 H6]. split.
    + apply fmt4_inj; try assumption. unfold fmt4, fmt2. congruence.
    + apply fmt2_inj; try lia. unfold fmt2. congruence.
  - intros [E1 E2]. unfold period_M_str. now rewrite E1, E2.
  - unfold period_M_str, fmt4, fmt2. simpl. discriminate.
Qed.

Lemma month_bucket_is_year_month_witness :
  (period_M_str (Some (mkdate 2024 1 1)) = period_M_str (Some (mkdate 2024 1 4))
   <-> 2024%Z = 2024%Z /\ 1%Z = 1%Z)
  /\ period_M_str (Some (mkdate 2024 1 1)) <> period_M_str None.
Proof.
  apply (month_bucket_is_year_month (mkdate 2024 1 1) (mkdate 2024 1 4));
    simpl; lia.
Defined.

(** ** The default selection *)

Lemma date_leb_refl a : date_leb a a = true.
Proof.
  unfold date_leb. rewrite !Z.eqb_refl, Z.leb_refl.
  now rewrite !orb_true_r.
Qed.

Lemma date_leb_total a b : date_leb a b = false -> date_leb b a = true.
Proof.
  unfold date_leb. destruct a as [ya ma da], b as [yb mb db]. simpl.
  rewrite orb_false_iff, andb_false_iff, orb_false_iff, andb_false_iff,
          !orb_true_iff, !andb_true_iff, !orb_true_iff, !andb_true_iff,
          !Z.ltb_lt, !Z.ltb_ge, !Z.eqb_eq, !Z.eqb_neq, !Z.leb_le, Z.leb_gt.
  lia.
Qed.

Lemma series_min_date_le xs lo d :
  series_min_date xs = Some lo -> In (Some d) xs -> date_leb lo d = true.
Proof.
  revert lo. induction xs as [|[x|] xs IH]; intros lo H Hin; simpl in *.
  - destruct Hin.
  - destruct (series_min_date xs) as [m|] eqn:E.
    + injection H as <-. destruct Hin as [[= ->]|Hin].
      * destruct (date_leb d m) eqn:L; [apply date_leb_refl|].
        now apply date_leb_total.
      * specialize (IH m eq_refl Hin).
        destruct (date_leb x m) eqn:L; [|exact IH].
        exact (date_leb_trans _ _ _ L IH).
    + injection H as <-. destruct Hin as [[= ->]|Hin]; [apply date_leb_refl|].
      exfalso. clear IH. induction xs as [|[y|] xs IH]; simpl in *.
      * destruct Hin.
      * now destruct (series_min_date xs).
      * destruct Hin as [[=]|Hin]. auto.
  - destruct Hin as [[=]|Hin]. auto.
Qed.

Lemma series_max_date_ge xs hi d :
  series_max_date xs = Some hi -> In (Some d) xs -> date_leb d hi = true.
Proof.
  revert hi. induction xs as [|[x|] xs IH]; intros hi H Hin; simpl in *.
  - destruct Hin.
  - destruct (series_max_date xs) as [m|] eqn:E.
    + injection H as <-. destruct Hin as [[= ->]|Hin].
      * destruct (date_leb m d) eqn:L; [apply date_leb_refl|].
        now apply date_leb_total.
      * specialize (IH m eq_refl Hin).
        destruct (date_leb m x) eqn:L; [|exact IH].
        exact (date_leb_trans _ _ _ IH L).
    + injection H as <-. destruct Hin as [[= ->]|Hin]; [apply date_leb_refl|].
      exfalso. clear IH. induction xs as [|[y|] xs IH]; simpl in *.
      * destruct Hin.
      * now destruct (series_max_date xs).
      * destruct Hin as [[=]|Hin]. auto.
  - destruct Hin as [[=]|Hin]. auto.
Qed.

Lemma in_list_In x l : in_list x l = true <-> In x l.
Proof.
  unfold in_list. rewrite existsb_exists. split.
  - intros (y & Hy & E). apply String.eqb_eq in E. now subst.
  - intros H. exists x. split; [exact H|apply String.eqb_refl].
Qed.

Lemma unique_In x xs : In x (unique xs) <-> In x xs.
Proof.
  induction xs as [|y xs IH]; simpl; [tauto|].
  rewrite filter_In, IH, negb_true_iff, String.eqb_neq.
  destruct (String.eqb_spec y x) as [->|Hne]; [tauto|]. intuition congruence.
Qed.

Lemma insert_string_In x y l : In x (insert_string y l) <-> x = y \/ In x l.
Proof.
  induction l as [|z l IH]; simpl; [intuition|].
  destruct (String.leb y z); simpl; rewrite ?IH; intuition.
Qed.

Lemma sorted_strings_In x l : In x (sorted_strings l) <-> In x l.
Proof.
  induction l as [|y l IH]; simpl; [tauto|].
  rewrite insert_string_In, IH. intuition.
Qed.

(** Every value of a column is among the options offered for it. *)
Lemma options_cover xs x :
  In x xs -> in_list x (sorted_strings (unique xs)) = true.
Proof. intros H. now apply in_list_In, sorted_strings_In, unique_In. Qed.

Lemma isin_options xs :
  isin (sorted_strings (unique xs)) (StrCol xs) = map (fun _ => true) xs.
Proof. simpl. apply map_ext_in. intros x Hx. now apply options_cover. Qed.

Lemma mask_and_all_true {A : Type} (m : list bool) (xs : list A) :
  length xs = length m -> mask_and m (map (fun _ => true) xs) = m.
Proof.
  unfold mask_and. revert xs. induction m as [|b m IH]; intros [|x xs]; simpl;
    try reflexivity; try discriminate.
  intros [= E]. now rewrite andb_true_r, IH.
Qed.

Lemma select_all_true {A : Type} (m : list bool) (xs : list A) :
  Forall (fun b => b = true) m -> length m = length xs -> select m xs = xs.
Proof.
  intros H. revert xs. induction H as [|b m -> _ IH]; intros [|x xs]; simpl;
    try reflexivity; try discriminate.
  intros [= E]. now rewrite IH.
Qed.

Lemma date_bound_inr pick c d :
  date_bound pick c = inr d -> exists xs, c = DateCol xs /\ pick xs = Some d.
Proof.
  unfold date_bound, raise, ok.
  destruct c as [xs|xs|xs]; try discriminate.
  destruct (pick xs) as [d'|] eqn:E; [|discriminate]. intros [= <-]. eauto.
Qed.

Lemma options_inr c l :
  options c = inr l -> exists xs, c = StrCol xs /\ l = sorted_strings (unique xs).
Proof.
  unfold options, raise, ok.
  destruct c as [xs|xs|xs]; try discriminate. intros [= <-]. eauto.
Qed.

Lemma between_default dates lo hi :
  series_min_date dates = Some lo -> series_max_date dates = Some hi ->
  map (fun d => match d with
                | Some d => date_leb lo d && date_leb d hi
                | None => false
                end) dates
  = map is_known dates.
Proof.
  intros Hlo Hhi. apply map_ext_in. intros [d|] Hd; [|reflexivity]. simpl.
  now rewrite (series_min_date_le _ _ _ Hlo Hd), (series_max_date_ge _ _ _ Hhi Hd).
Qed.

Lemma getitem_mask_all_true df m n :
  map_Forall (fun _ c => col_length c = n) df ->
  Forall (fun b => b = true) m -> length m = n ->
  getitem_mask df m = df.
Proof.
  intros W T L. unfold getitem_mask.
  rewrite <- (map_fmap_id df) at 2. apply map_fmap_ext. intros k c Hc.
  pose proof (W k c Hc) as Lc. simpl in Lc.
  destruct c as [xs|xs|xs]; simpl in *; f_equal; apply select_all_true; auto;
    lia.
Qed.

(** ** Properties of the sidebar defaults (lines 97-130) *)

(** With the selection the sidebar starts from (full date range, every option
    of every multiselect, band "All") the view holds exactly the records whose
    date is known; when every date is known it is the whole dataset. *)
Theorem default_filter_keeps_dated_rows (df : DataFrame) (S : FilterSpec) (n : nat) :
  map_Forall (fun _ c => col_length c = n) df ->
  default_filter df = inr S ->
  exists dates,
    df !! "date" = Some (DateCol dates)
    /\ data S df = inr (getitem_mask df (map is_known dates))
    /\ (Forall (fun d => is_known d = true) dates -> data S df = inr df).
Proof.
  intros W H. unfold default_filter in H.
  apply bind_inr in H as (d & Hd%getcol_inr & H).
  apply bind_inr in H as (lo & (dates & -> & Hlo)%date_bound_inr & H).
  apply bind_inr in H as (d2 & Hd2%getcol_inr & H).
  rewrite Hd in Hd2. injection Hd2 as <-.
  apply bind_inr in H as (hi & (dates' & [= <-] & Hhi)%date_bound_inr & H).
  apply bind_inr in H as (c & Hc%getcol_inr & H).
  apply bind_inr in H as (cs' & (cs & -> & ->)%options_inr & H).
  apply bind_inr in H as (p & Hp%getcol_inr & H).
  apply bind_inr in H as (ps' & (ps & -> & ->)%options_inr & H).
  apply bind_inr in H as (g & Hg%getcol_inr & H).
  apply bind_inr in H as (gs' & (gs & -> & ->)%options_inr & H).
  apply bind_inr in H as (s & Hs%getcol_inr & H).
  apply bind_inr in H as (ss' & (ss & -> & ->)%options_inr & H).
  injection H as <-.
  pose proof (W _ _ Hd) as Ld. pose proof (W _ _ Hc) as Lc.
  pose proof (W _ _ Hp) as Lp. pose proof (W _ _ Hg) as Lg.
  pose proof (W _ _ Hs) as Ls. simpl in Ld, Lc, Lp, Lg, Ls.
  assert (data (mkFilterSpec lo hi (sorted_strings (unique cs))
                  (sorted_strings (unique ps)) (sorted_strings (unique gs))
                  (sorted_strings (unique ss)) "All") df
          = inr (getitem_mask df (map is_known dates))) as E.
  { unfold data, flt, getcol. rewrite Hd, Hc, Hp, Hg, Hs.
    cbn [bind ok dt_date_between date_min date_max campaigns platforms
         categories genders perf_band].
    rewrite (between_default dates lo hi Hlo Hhi), !isin_options.
    rewrite (mask_and_all_true (map is_known dates) cs) by (rewrite length_map; lia).
    rewrite (mask_and_all_true (map is_known dates) ps) by (rewrite length_map; lia).
    rewrite (mask_and_all_true (map is_known dates) gs) by (rewrite length_map; lia).
    rewrite (mask_and_all_true (map is_known dates) ss) by (rewrite length_map; lia).
    reflexivity. }
  exists dates. split; [exact Hd|]. split; [exact E|].
  intros K. rewrite E. f_equal.
  apply (getitem_mask_all_true df _ n W).
  - apply List.Forall_forall. intros b Hb. apply in_map_iff in Hb as (x & <- & Hx).
    rewrite List.Forall_forall in K. now apply K.
  - now rewrite length_map.
Qed.

Lemma default_filter_example : default_filter example_dataset = inr select_all.
Proof. vm_cast_no_check (eq_refl (@inr exn FilterSpec select_all)). Qed.

Lemma default_filter_keeps_dated_rows_witness :
  exists dates,
    example_dataset !! "date"%string = Some (DateCol dates)
    /\ data select_all example_dataset
       = inr (getitem_mask example_dataset (map is_known dates))
    /\ (Forall (fun d => is_known d = true) dates ->
        data select_all example_dataset = inr example_dataset).
Proof.
  exact (default_filter_keeps_dated_rows example_dataset select_all 3
           example_dataset_aligned default_filter_example).
Defined.

(** ** Properties of the ladder and of the band filter (lines 70-75, 141-142) *)

(** What each category says of the ROI, unknown ROI included: High is
    200 <= x, Good is 100 <= x without 200 <= x, Average is 0 <= x without
    100 <= x, and Poor is everything for which 0 <= x fails, NaN among it. *)
Lemma performance_category_meaning x :
  (performance_category x = "High Performer"%string <-> (200 <=? x)%float = true)
  /\ (performance_category x = "Good Performer"%string
      <-> (100 <=? x)%float = true /\ (200 <=? x)%float = false)
  /\ (performance_category x = "Average Performer"%string
      <-> (0 <=? x)%float = true /\ (100 <=? x)%float = false)
  /\ (performance_category x = "Poor Performer"%string <-> (0 <=? x)%float = false).
Proof.
  assert ((200 <=? x)%float = true -> (100 <=? x)%float = true) as M2
    by (apply leb_trans; now vm_compute).
  assert ((100 <=? x)%float = true -> (0 <=? x)%float = true) as M1
    by (apply leb_trans; now vm_compute).
  unfold performance_category.
  destruct (200 <=? x)%float, (100 <=? x)%float, (0 <=? x)%float;
    try (specialize (M2 eq_refl)); try (specialize (M1 eq_refl));
    try discriminate; repeat split; try tauto; try discriminate;
    try (intros [? ?]; discriminate).
Qed.

(** The ladder is monotone: a record with the larger ROI is never in a lower
    band. *)
Theorem ladder_monotone (x y : float) :
  (x <=? y)%float = true ->
  (band_rank (performance_category x) <= band_rank (performance_category y))%nat.
Proof.
  intros L.
  assert ((200 <=? x)%float = true -> (200 <=? y)%float = true) as H2
    by (intros H; exact (leb_trans _ _ _ H L)).
  assert ((100 <=? x)%float = true -> (100 <=? y)%float = true) as H1
    by (intros H; exact (leb_trans _ _ _ H L)).
  assert ((0 <=? x)%float = true -> (0 <=? y)%float = true) as H0
    by (intros H; exact (leb_trans _ _ _ H L)).
  assert ((200 <=? y)%float = true -> (100 <=? y)%float = true) as M2
    by (apply leb_trans; now vm_compute).
  assert ((100 <=? y)%float = true -> (0 <=? y)%float = true) as M1
    by (apply leb_trans; now vm_compute).
  unfold performance_category.
  destruct (200 <=? x)%float, (100 <=? x)%float, (0 <=? x)%float,
           (200 <=? y)%float, (100 <=? y)%float, (0 <=? y)%float;
    try (specialize (H2 eq_refl)); try (specialize (H1 eq_refl));
    try (specialize (H0 eq_refl)); try (specialize (M2 eq_refl));
    try (specialize (M1 eq_refl)); try discriminate;
    unfold band_rank; simpl; lia.
Qed.

Lemma ladder_monotone_witness :
  (band_rank (performance_category 150) <= band_rank (performance_category 200))%nat.
Proof. apply ladder_monotone. reflexivity. Defined.

(** A band filter shows the records whose ROI is in the band: every record
    that passes a filter with band B on a normalised dataset has a ROI that
    the ladder maps to B; under "High Performer" the ROI is at least 200, and
    under "Poor Performer" it fails 0 <= ROI (it is negative or unknown). *)
Theorem band_filter_selects_by_roi (to_datetime : column -> result column)
    (S : FilterSpec) (raw df : DataFrame) (m : list bool) (i : nat) (r p : float) :
  clean_and_engineer to_datetime raw = inr df ->
  flt S df = inr m -> m !! i = Some true ->
  perf_band S <> "All"%string ->
  cell_num raw "revenue" i = Some r -> cell_num raw "total_payout" i = Some p ->
  let roi := ((r - p) / zero_to_nan p * 100)%float in
  performance_category roi = perf_band S
  /\ (perf_band S = "High Performer"%string -> (200 <=? roi)%float = true)
  /\ (perf_band S = "Poor Performer"%string -> (0 <=? roi)%float = false).
Proof.
  intros Hn Hm Hi Hb Hr Hp roi.
  apply (flt_row_spec S df m i Hm) in Hi as (_ & _ & _ & _ & _ & [E|E]);
    [contradiction|].
  pose proof Hn as Hn'.
  apply clean_and_engineer_inv in Hn'
    as (d & d' & likes & comments & reach & rev & pay & orders &
        _ & _ & _ & _ & _ & Erev & Epay & _ & ->).
  rewrite (cell_num_lookup _ _ _ _ Erev) in Hr.
  rewrite (cell_num_lookup _ _ _ _ Epay) in Hp.
  rewrite (cell_performance_category _ _ _ _ _ _ _ _ _ _ _ Hr Hp) in E.
  injection E as E. change (performance_category roi = perf_band S) in E.
  destruct (performance_category_meaning roi) as (P1 & _ & _ & P4).
  split; [exact E|]. split; intros B; rewrite B in E.
  - now apply P1.
  - now apply P4.
Qed.

Lemma flt_high :
  flt select_high example_dataset = inr [true; false; false].
Proof. vm_cast_no_check (eq_refl (@inr exn (list bool) [true; false; false])). Qed.

Lemma band_filter_selects_by_roi_witness :
  performance_category ((3000 - 1000) / zero_to_nan 1000 * 100)%float
  = "High Performer"%string
  /\ (200 <=? (3000 - 1000) / zero_to_nan 1000 * 100)%float = true.
Proof.
  destruct (band_filter_selects_by_roi keep_dates select_high example_upload
              example_dataset [true; false; false] 0 3000 1000
              example_normalises flt_high eq_refl ltac:(discriminate)
              eq_refl eq_refl) as (H1 & H2 & _).
  split; [exact H1|exact (H2 eq_refl)].
Defined.

(** ** Properties of the average KPIs (lines 173, 185, 187) *)

Lemma dropna_all_nan xs :
  Forall (fun x => is_nan x = true) xs -> dropna xs = [].
Proof.
  induction 1 as [|x xs Hx _ IH]; simpl; [reflexivity|].
  unfold notnan. now rewrite Hx.
Qed.

Lemma series_mean_all_nan xs :
  Forall (fun x => is_nan x = true) xs -> series_mean (NumCol xs) = inr nan.
Proof.
  intros H. unfold series_mean. cbn [bind series_values ok].
  now rewrite (dropna_all_nan xs H).
Qed.

Lemma ratio_column_all_nan (nums dens : list float) :
  all_zero dens ->
  Forall (fun x => is_nan x = true) (zip_with div nums (map zero_to_nan dens)).
Proof.
  intros Z. revert nums. induction Z as [|d dens Hd _ IH]; intros [|x nums];
    simpl; constructor; auto.
  now rewrite (zero_to_nan_zero d Hd), div_nan_r.
Qed.

Lemma scaled_all_nan (xs : list float) (k : float) :
  Forall (fun x => is_nan x = true) xs ->
  Forall (fun x => is_nan x = true) (map (fun x => (x * k)%float) xs).
Proof.
  induction 1 as [|x xs Hx _ IH]; simpl; constructor; auto.
  apply is_nan_eq in Hx. subst x. now rewrite mul_nan_l.
Qed.

(** When the denominator of a ratio is zero on every record of the upload,
    the average of that ratio over the normalised dataset is NaN, computed
    without an error: zero reach for "Avg Engagement Rate", zero payout for
    "Avg ROAS", zero orders for "Avg Order Value". *)
Theorem averages_of_unknowns_are_nan (to_datetime : column -> result column)
    (raw df : DataFrame) :
  clean_and_engineer to_datetime raw = inr df ->
  (forall reach, raw !! "reach" = Some (NumCol reach) -> all_zero reach ->
     avg_engagement_rate df = inr nan)
  /\ (forall pay, raw !! "total_payout" = Some (NumCol pay) -> all_zero pay ->
        avg_roas df = inr nan)
  /\ (forall orders, raw !! "orders" = Some (NumCol orders) -> all_zero orders ->
        avg_order_value df = inr nan).
Proof.
  intros Hn.
  apply clean_and_engineer_inv in Hn
    as (d & d' & likes & comments & reach & rev & pay & orders &
        _ & _ & _ & _ & Er & _ & Ep & Eo & ->).
  split; [|split].
  - intros reach' Hr Z. rewrite Er in Hr. injection Hr as <-.
    unfold avg_engagement_rate, getcol, engineered. cbv zeta.
    rewrite !lookup_insert_ne by done. rewrite lookup_insert_eq. cbn [bind ok].
    apply series_mean_all_nan, scaled_all_nan, ratio_column_all_nan, Z.
  - intros pay' Hp Z. rewrite Ep in Hp. injection Hp as <-.
    unfold avg_roas, getcol, engineered. cbv zeta.
    rewrite !lookup_insert_ne by done. rewrite lookup_insert_eq. cbn [bind ok].
    apply series_mean_all_nan, ratio_column_all_nan, Z.
  - intros orders' Ho Z. rewrite Eo in Ho. injection Ho as <-.
    unfold avg_order_value, getcol, engineered. cbv zeta.
    rewrite !lookup_insert_ne by done. rewrite lookup_insert_eq. cbn [bind ok].
    apply series_mean_all_nan, ratio_column_all_nan, Z.
Qed.

(** An upload of one record without reach, payout or orders. *)
Lemma zero_upload_normalises :
  clean_and_engineer keep_dates
    (getitem_mask example_upload [false; false; true])
  = inr zero_view.
Proof. vm_cast_no_check (eq_refl (@inr exn DataFrame zero_view)). Qed.

Lemma zero_upload_reach :
  getitem_mask example_upload [false; false; true] !! "reach"%string
  = Some (NumCol [0%float]).
Proof. vm_cast_no_check (eq_refl (Some (NumCol [0%float]))). Qed.

Lemma averages_of_unknowns_are_nan_witness :
  avg_engagement_rate zero_view = inr nan.
Proof.
  destruct (averages_of_unknowns_are_nan keep_dates _ _ zero_upload_normalises)
    as (H & _ & _).
  exact (H [0%float] zero_upload_reach all_zero_singleton).
Defined.
